(** * The task event bus and the response assembler of dify

    A shallow embedding of
      - [api/core/application_queue_manager.py]  (ApplicationQueueManager)
      - [api/core/app_runner/generate_task_pipeline.py]  (GenerateTaskPipeline)
    and the properties of its specification, stated over that embedding.

    Python code that mutates objects and raises exceptions is written in a
    state-and-exception monad: a computation takes the state, returns either
    a value or a raised exception, and the state as it was left (a mutation
    made before a [raise] stays made). *)

From Stdlib Require Import ZArith.
From stdpp Require Import base gmap strings list.

Open Scope Z_scope.

(** ** Python values *)

(** The objects that travel in event payloads and in response dicts.
    A [PyDict] keeps its items in insertion order, as a Python dict does.
    [PyEntity cls d] is an object of class [cls] that has a [dict()] method
    returning [d] (a pydantic entity); [PyRecord] is an instance of a
    SQLAlchemy declarative model (it carries [_sa_instance_state] and has no
    [dict] attribute); [PyTable] is a declarative model class itself (an
    instance of [DeclarativeMeta]). *)
#[warnings="-register-all"]
Inductive pyobj : Type :=
| PyNone
| PyStr (s : string)
| PyInt (z : Z)
| PyDict (items : list (string * pyobj))
| PyList (items : list pyobj)
| PyEntity (cls : string) (dict_result : pyobj)
| PyRecord (cls : string)
| PyTable (cls : string).

(** Errors carried by a QueueErrorEvent, by the class [_handle_error] tests. *)
Inductive error_obj : Type :=
| InvokeAuthorizationError (msg : string)
| InvokeError (msg : string)
| ValueError (msg : string)
| OtherError (description : option string) (str : string).

Inductive pyexn : Type :=
| ConversationTaskStoppedException
| AttributeError (attr : string)
| TypeError (msg : string)
| KeyError (key : string)
| IndexError
| RaisedError (e : error_obj)
| Exception (msg : string).

Inductive result (A : Type) : Type :=
| Ok (a : A)
| Raise (e : pyexn).
Arguments Ok {A} a.
Arguments Raise {A} e.

Definition M (S A : Type) : Type := S -> result A * S.

#[global] Instance M_ret S : MRet (M S) := fun A a s => (Ok a, s).
#[global] Instance M_bind S : MBind (M S) := fun A B f m s =>
  match m s with
  | (Ok a, s') => f a s'
  | (Raise e, s') => (Raise e, s')
  end.

Definition raise {S A} (e : pyexn) : M S A := fun s => (Raise e, s).
Definition get_state {S} : M S S := fun s => (Ok s, s).
Definition modify_state {S} (f : S -> S) : M S unit := fun s => (Ok tt, f s).

(** [d[key] = v]: replaces the value of an existing key in place, appends a
    new key at the end. *)
Fixpoint dict_set (key : string) (v : pyobj) (items : list (string * pyobj))
  : list (string * pyobj) :=
  match items with
  | [] => [(key, v)]
  | (k, x) :: rest =>
      if String.eqb k key then (k, v) :: rest else (k, x) :: dict_set key v rest
  end.

Fixpoint dict_get (key : string) (items : list (string * pyobj)) : option pyobj :=
  match items with
  | [] => None
  | (k, x) :: rest => if String.eqb k key then Some x else dict_get key rest
  end.

(** ** Entities

    Modelled from the spec: [core/entities/queue_entities.py],
    [core/entities/application_entities.py] and
    [core/model_runtime/entities/*.py] are not part of the sources at hand.
    The event variants are those of the data model (section 3 of the
    specification); every field is one the two source files read or write
    ([event.llm_result], [event.chunk], [chunk.delta.message.content],
    [chunk.prompt_messages], [event.text], [event.retriever_resources],
    [event.agent_thought_id], [event.error], the usage fields copied by
    [_save_message]). *)

Inductive InvokeFrom : Type :=
| EXPLORE
| DEBUGGER
| OTHER_SOURCE (name : string).

Inductive PromptMessageRole : Type := USER | ASSISTANT | SYSTEM | TOOL.

Inductive PromptMessageContent : Type :=
| TextPromptMessageContent (data : string)
| ImagePromptMessageContent (data : string) (detail : string).

Inductive prompt_content : Type :=
| ContentNone
| ContentStr (s : string)
| ContentList (parts : list PromptMessageContent).

Record PromptMessage : Type := {
  role : PromptMessageRole;
  content : prompt_content
}.

(** Decimal and float figures are only carried from the model runtime to the
    message record; they are kept as integers of a fixed unit. *)
Record LLMUsage : Type := {
  prompt_tokens : Z;
  prompt_unit_price : Z;
  prompt_price_unit : Z;
  prompt_price : Z;
  completion_tokens : Z;
  completion_unit_price : Z;
  completion_price_unit : Z;
  completion_price : Z;
  total_tokens : Z;
  total_price : Z;
  currency : string;
  latency : Z
}.

(** [llm_result.message] is an AssistantPromptMessage; the only attribute the
    sources use is its [content], a string or None. *)
Record LLMResult : Type := {
  model : string;
  prompt_messages : list PromptMessage;
  message_content : option string;
  usage : LLMUsage
}.

(** [chunk.delta.message.content] and [chunk.prompt_messages]. *)
Record LLMResultChunk : Type := {
  chunk_prompt_messages : list PromptMessage;
  delta_message_content : option string
}.

Inductive AppQueueEvent : Type :=
| QueuePingEvent
| QueueStopEvent
| QueueErrorEvent (error : error_obj)
| QueueMessageEvent (chunk : LLMResultChunk)
| QueueMessageReplaceEvent (text : string)
| QueueMessageEndEvent (llm_result : LLMResult)
| QueueRetrieverResourcesEvent (retriever_resources : list pyobj)
| QueueAgentThoughtEvent (agent_thought_id : string).

Record QueueMessage : Type := {
  task_id : string;
  message_id : string;
  conversation_id : string;
  app_mode : string;
  event : AppQueueEvent
}.

Definition isinstance_QueueStopEvent (e : AppQueueEvent) : bool :=
  match e with QueueStopEvent => true | _ => false end.

(** *** What [event.dict()] returns

    Modelled from the spec: the entity classes are not at hand; [dict()] of a
    pydantic entity is the mapping of its fields, sub-entities turned into
    mappings themselves. Ping and Stop carry no field. *)

Definition option_str (o : option string) : pyobj :=
  match o with Some s => PyStr s | None => PyNone end.

Definition role_value (r : PromptMessageRole) : string :=
  match r with
  | USER => "user" | ASSISTANT => "assistant" | SYSTEM => "system" | TOOL => "tool"
  end.

Definition content_part_dict (c : PromptMessageContent) : pyobj :=
  match c with
  | TextPromptMessageContent data =>
      PyDict [("type", PyStr "text"); ("data", PyStr data)]
  | ImagePromptMessageContent data detail =>
      PyDict [("type", PyStr "image"); ("data", PyStr data); ("detail", PyStr detail)]
  end.

Definition prompt_content_dict (c : prompt_content) : pyobj :=
  match c with
  | ContentNone => PyNone
  | ContentStr s => PyStr s
  | ContentList parts => PyList (map content_part_dict parts)
  end.

Definition PromptMessage_dict (p : PromptMessage) : pyobj :=
  PyDict [("role", PyStr (role_value (role p)));
          ("content", prompt_content_dict (content p))].

Definition LLMUsage_dict (u : LLMUsage) : pyobj :=
  PyDict [("prompt_tokens", PyInt (prompt_tokens u));
          ("prompt_unit_price", PyInt (prompt_unit_price u));
          ("prompt_price_unit", PyInt (prompt_price_unit u));
          ("prompt_price", PyInt (prompt_price u));
          ("completion_tokens", PyInt (completion_tokens u));
          ("completion_unit_price", PyInt (completion_unit_price u));
          ("completion_price_unit", PyInt (completion_price_unit u));
          ("completion_price", PyInt (completion_price u));
          ("total_tokens", PyInt (total_tokens u));
          ("total_price", PyInt (total_price u));
          ("currency", PyStr (currency u));
          ("latency", PyInt (latency u))].

Definition LLMResult_dict (r : LLMResult) : pyobj :=
  PyDict [("model", PyStr (model r));
          ("prompt_messages", PyList (map PromptMessage_dict (prompt_messages r)));
          ("message", PyDict [("content", option_str (message_content r))]);
          ("usage", LLMUsage_dict (usage r))].

Definition LLMResultChunk_dict (c : LLMResultChunk) : pyobj :=
  PyDict [("prompt_messages", PyList (map PromptMessage_dict (chunk_prompt_messages c)));
          ("delta", PyDict [("message",
              PyDict [("content", option_str (delta_message_content c))])])].

Definition error_dict (e : error_obj) : pyobj :=
  match e with
  | InvokeAuthorizationError msg => PyStr msg
  | InvokeError msg => PyStr msg
  | ValueError msg => PyStr msg
  | OtherError _ s => PyStr s
  end.

(** The Python object an event is: an entity whose [dict()] gives its fields. *)
Definition event_object (e : AppQueueEvent) : pyobj :=
  match e with
  | QueuePingEvent => PyEntity "QueuePingEvent" (PyDict [])
  | QueueStopEvent => PyEntity "QueueStopEvent" (PyDict [])
  | QueueErrorEvent error =>
      PyEntity "QueueErrorEvent" (PyDict [("error", error_dict error)])
  | QueueMessageEvent chunk =>
      PyEntity "QueueMessageEvent" (PyDict [("chunk", LLMResultChunk_dict chunk)])
  | QueueMessageReplaceEvent text =>
      PyEntity "QueueMessageReplaceEvent" (PyDict [("text", PyStr text)])
  | QueueMessageEndEvent llm_result =>
      PyEntity "QueueMessageEndEvent" (PyDict [("llm_result", LLMResult_dict llm_result)])
  | QueueRetrieverResourcesEvent retriever_resources =>
      PyEntity "QueueRetrieverResourcesEvent"
        (PyDict [("retriever_resources", PyList retriever_resources)])
  | QueueAgentThoughtEvent agent_thought_id =>
      PyEntity "QueueAgentThoughtEvent"
        (PyDict [("agent_thought_id", PyStr agent_thought_id)])
  end.

(** ** The external key-value store and the task queue

    Modelled from the spec: [extensions/ext_redis.py] is not at hand; the
    store is the interface of section 6, [set(key, value, ttl)],
    [get(key)] returning the value that was set, [delete(key)]. Expiry is a
    matter of wall-clock time and is not modelled: an entry records the TTL
    it was written with. *)

Inductive redis_value : Type :=
| RStr (s : string)
| RInt (z : Z).

Record redis_entry : Type := {
  ttl : Z;
  value : redis_value
}.

(** What the producer thread and the consumer thread share for one task:
    the queue ([None] is the end-of-stream sentinel) and the store. *)
Record world : Type := {
  q : list (option QueueMessage);
  redis : gmap string redis_entry
}.

Definition set_q (f : list (option QueueMessage) -> list (option QueueMessage))
  (w : world) : world :=
  {| q := f (q w); redis := redis w |}.

Definition set_redis (f : gmap string redis_entry -> gmap string redis_entry)
  (w : world) : world :=
  {| q := q w; redis := f (redis w) |}.

Definition redis_setex (key : string) (t : Z) (v : redis_value) : M world unit :=
  modify_state (set_redis (fun r => <[key := {| ttl := t; value := v |}]> r)).

Definition redis_get (key : string) : M world (option redis_value) :=
  w ← get_state; mret (value <$> redis w !! key).

Definition redis_delete (key : string) : M world unit :=
  modify_state (set_redis (fun r => delete key r)).

(** [self._q.put(item)] *)
Definition q_put (item : option QueueMessage) : M world unit :=
  modify_state (set_q (fun l => l ++ [item])).

(** ** ApplicationQueueManager *)

Record ApplicationQueueManager : Type := {
  _task_id : string;
  _user_id : string;
  _invoke_from : InvokeFrom;
  _conversation_id : string;
  _app_mode : string;
  _message_id : string
}.

Definition _generate_task_belong_cache_key (task_id : string) : string :=
  "generate_task_belong:" +:+ task_id.

Definition _generate_stopped_cache_key (task_id : string) : string :=
  "generate_task_stopped:" +:+ task_id.

(** ['account' if self._invoke_from in [EXPLORE, DEBUGGER] else 'end-user'] *)
Definition user_prefix (invoke_from : InvokeFrom) : string :=
  match invoke_from with
  | EXPLORE | DEBUGGER => "account"
  | OTHER_SOURCE _ => "end-user"
  end.

(** [f"{user_prefix}-{self._user_id}"] *)
Definition prefixed_identity (invoke_from : InvokeFrom) (user_id : string) : string :=
  user_prefix invoke_from +:+ "-" +:+ user_id.

(** [__init__]: rejects an empty user id, records the owner of the task for
    1800 time units, starts from an empty queue. *)
Definition __init__ (task_id user_id : string) (invoke_from : InvokeFrom)
    (conversation_id app_mode message_id : string)
    (store : gmap string redis_entry)
  : result ApplicationQueueManager * world :=
  if String.eqb user_id "" then
    (Raise (RaisedError (ValueError "user is required")), {| q := []; redis := store |})
  else
    let self := {| _task_id := task_id; _user_id := user_id;
                   _invoke_from := invoke_from;
                   _conversation_id := conversation_id;
                   _app_mode := app_mode; _message_id := message_id |} in
    match redis_setex (_generate_task_belong_cache_key task_id) 1800
            (RStr (prefixed_identity invoke_from user_id))
            {| q := []; redis := store |} with
    | (Ok _, w) => (Ok self, w)
    | (Raise e, w) => (Raise e, w)
    end.

Definition is_sqlalchemy (data : pyobj) : bool :=
  match data with
  | PyTable _ => true      (* isinstance(data, DeclarativeMeta) *)
  | PyRecord _ => true     (* hasattr(data, '_sa_instance_state') *)
  | _ => false
  end.

Definition sqlalchemy_message : string :=
  "Critical Error: Passing SQLAlchemy Model instances that cause thread safety issues is not allowed.".

(** [_check_for_sqlalchemy_models]: the first statement calls [dict()] on
    the argument, on the event and on every value the recursion reaches
    alike; an object without that method raises AttributeError. *)
Fixpoint _check_for_sqlalchemy_models (event : pyobj) : result unit :=
  match event with
  | PyEntity _ data =>
      match data with
      | PyDict items =>
          (fix for_values (l : list (string * pyobj)) : result unit :=
             match l with
             | [] => Ok tt
             | (_, value) :: rest =>
                 match _check_for_sqlalchemy_models value with
                 | Ok _ => for_values rest
                 | Raise e => Raise e
                 end
             end) items
      | PyList items =>
          (fix for_items (l : list pyobj) : result unit :=
             match l with
             | [] => Ok tt
             | item :: rest =>
                 match _check_for_sqlalchemy_models item with
                 | Ok _ => for_items rest
                 | Raise e => Raise e
                 end
             end) items
      | _ =>
          if is_sqlalchemy data then Raise (TypeError sqlalchemy_message)
          else Ok tt
      end
  | _ => Raise (AttributeError "dict")
  end.

Definition lift_result {S A} (r : result A) : M S A :=
  fun s => (r, s).

Section Manager.

Variable self : ApplicationQueueManager.

(** [stop_listen]: puts the sentinel. *)
Definition stop_listen : M world unit := q_put None.

(** [publish]: scan, wrap, enqueue, and raise for a Stop event. *)
Definition publish (event : AppQueueEvent) : M world unit :=
  lift_result (_check_for_sqlalchemy_models (event_object event));;
  let message := {| task_id := _task_id self;
                    message_id := _message_id self;
                    conversation_id := _conversation_id self;
                    app_mode := _app_mode self;
                    event := event |} in
  q_put (Some message);;
  if isinstance_QueueStopEvent event
  then raise ConversationTaskStoppedException
  else mret tt.

Definition publish_chunk_message (chunk : LLMResultChunk) : M world unit :=
  publish (QueueMessageEvent chunk).

Definition publish_message_replace (text : string) : M world unit :=
  publish (QueueMessageReplaceEvent text).

Definition publish_retriever_resources (retriever_resources : list pyobj)
  : M world unit :=
  publish (QueueRetrieverResourcesEvent retriever_resources).

Definition publish_message_end (llm_result : LLMResult) : M world unit :=
  publish (QueueMessageEndEvent llm_result);;
  stop_listen.

Definition publish_agent_thought (message_agent_thought_id : string) : M world unit :=
  publish (QueueAgentThoughtEvent message_agent_thought_id).

Definition publish_error (e : error_obj) : M world unit :=
  publish (QueueErrorEvent e);;
  stop_listen.

(** [set_stop_flag] *)
Definition set_stop_flag : M world unit :=
  result ← redis_get (_generate_task_belong_cache_key (_task_id self));
  match result with
  | None => mret tt
  | Some owner =>
      match owner with
      | RStr s =>
          if String.eqb s (prefixed_identity (_invoke_from self) (_user_id self))
          then redis_setex (_generate_stopped_cache_key (_task_id self)) 600 (RInt 1)
          else mret tt
      | RInt _ => mret tt
      end
  end.

(** [_is_stopped]: reads the flag and clears it when it is there. *)
Definition _is_stopped : M world bool :=
  let stopped_cache_key := _generate_stopped_cache_key (_task_id self) in
  result ← redis_get stopped_cache_key;
  match result with
  | Some _ => redis_delete stopped_cache_key;; mret true
  | None => mret false
  end.

(** The [finally] clause of [listen]'s loop, run at the end of every
    iteration (after the [break], after the consumer resumes the [yield],
    after the [continue]) with the current countdown; it gives the countdown
    back decremented. An exception raised in it leaves the generator. *)
Definition listen_finally (listen_timeout : Z) : M world Z :=
  let listen_timeout := listen_timeout - 1 in
  stop ← (if listen_timeout <=? 0 then mret true else _is_stopped);
  (if stop : bool
   then publish QueueStopEvent;; stop_listen
   else mret tt);;
  (if (0 <? listen_timeout) && (listen_timeout mod 10 =? 0)
   then publish QueuePingEvent
   else mret tt);;
  mret listen_timeout.

End Manager.

(** *** The generator [listen]

    A generator object is either not started, suspended at [yield message]
    (its local [listen_timeout] is kept), or finished. *)
Inductive generator : Type :=
| GenCreated
| GenSuspended (listen_timeout : Z)
| GenFinished.

(** What [next(generator)] gives when it raises nothing: the message yielded,
    or the normal return of the generator function (StopIteration). *)
Inductive next_result : Type :=
| Yield (message : QueueMessage)
| StopIteration.

Section Listener.

Variable self : ApplicationQueueManager.

(** [self._q.get(timeout=1)]: the head of the queue, or [queue.Empty] when
    nothing is there for the whole poll tick. *)
Definition q_get : M world (option (option QueueMessage)) :=
  fun w =>
    match q w with
    | [] => (Ok None, w)
    | item :: rest => (Ok (Some item), set_q (fun _ => rest) w)
    end.

(** The [while True] loop from its head until the generator yields, returns
    or raises. [fuel] bounds the iterations; [None] is fuel run out. *)
Fixpoint listen_loop (fuel : nat) (listen_timeout : Z)
  : M world (option (next_result * generator)) :=
  match fuel with
  | O => mret None
  | S fuel' =>
      got ← q_get;
      match got with
      | Some (Some message) =>
          (* yield message: the finally clause waits for the resumption *)
          mret (Some (Yield message, GenSuspended listen_timeout))
      | Some None =>
          (* break, through the finally clause *)
          listen_finally self listen_timeout;;
          mret (Some (StopIteration, GenFinished))
      | None =>
          (* except queue.Empty: continue, through the finally clause *)
          listen_timeout' ← listen_finally self listen_timeout;
          listen_loop fuel' listen_timeout'
      end
  end.

(** Every iteration decrements the countdown and a countdown that is not
    positive makes the finally clause raise, so this many iterations are
    never used up (see [listen_loop_total]). *)
Definition listen_fuel (listen_timeout : Z) : nat := S (Z.to_nat listen_timeout).

(** [next(g)] for [g = self.listen()]. *)
Definition listen_next (g : generator) : M world (option (next_result * generator)) :=
  match g with
  | GenCreated =>
      let listen_timeout := 600 in
      listen_loop (listen_fuel listen_timeout) listen_timeout
  | GenSuspended listen_timeout =>
      listen_timeout' ← listen_finally self listen_timeout;
      listen_loop (listen_fuel listen_timeout') listen_timeout'
  | GenFinished => mret (Some (StopIteration, GenFinished))
  end.

End Listener.

(** ** GenerateTaskPipeline

    Modelled from the spec: [models/model.py] (Message, Conversation,
    MessageAgentThought) and the ApplicationGenerateEntity are not part of
    the sources at hand; the records below hold the attributes the pipeline
    reads and writes. [created_at] is taken as the integer [int()] gives. *)

Module Conversation.
Record t : Type := {
  id : string;
  mode : string
}.
End Conversation.

Module Message.
Record t : Type := {
  id : string;
  created_at : Z;
  message : list pyobj;
  message_tokens : Z;
  message_unit_price : Z;
  message_price_unit : Z;
  answer : string;
  answer_tokens : Z;
  answer_unit_price : Z;
  answer_price_unit : Z;
  provider_response_latency : Z;
  total_price : Z
}.
End Message.

Module MessageAgentThought.
Record t : Type := {
  id : string;
  position : Z;
  thought : string;
  tool : string;
  tool_input : string
}.
End MessageAgentThought.

Module ModelConfig.
Record t : Type := {
  model : string;
  mode : string;
  credentials : pyobj
}.
End ModelConfig.

Module AppOrchestrationConfigEntity.
Record t : Type := {
  model_config : ModelConfig.t
}.
End AppOrchestrationConfigEntity.

Module ApplicationGenerateEntity.
Record t : Type := {
  task_id : string;
  conversation_id : option string;
  extras : pyobj;
  app_orchestration_config_entity : AppOrchestrationConfigEntity.t
}.
End ApplicationGenerateEntity.

Module TaskState.
Record t : Type := {
  llm_result : LLMResult;
  metadata : list (string * pyobj)
}.
End TaskState.

(** The collaborators the pipeline calls and the sources do not define: the
    model instance ([get_num_tokens], [_calc_response_usage]), the prompt
    template parser, [str.strip], the query for an agent thought by id, and
    the clock ([perf_counter n] is the reading of the [n]-th call). *)
Record collaborators : Type := {
  get_num_tokens : string -> list PromptMessage -> Z;
  _calc_response_usage : string -> pyobj -> Z -> Z -> LLMUsage;
  remove_template_variables : string -> string;
  strip : string -> string;
  first_agent_thought : string -> option MessageAgentThought.t;
  perf_counter : nat -> Z
}.

(** A block ["data: " + json.dumps(response) + "\n\n"], kept as the response
    it serializes. *)
Inductive sse_block : Type :=
| DataBlock (response : pyobj).

(** What the streaming generator yields: the generator [_yield_response]
    returns (given by the blocks it produces), or a plain string. *)
Inductive yielded_item : Type :=
| YieldGenerator (blocks : list sse_block)
| YieldStr (s : string).

(** [message_was_created.send(message, conversation=, is_first_message=, extras=)] *)
Record signal : Type := {
  sender : Message.t;
  signal_conversation : Conversation.t;
  is_first_message : bool;
  signal_extras : pyobj
}.

Record GenerateTaskPipeline : Type := {
  _application_generate_entity : ApplicationGenerateEntity.t;
  _queue_manager : ApplicationQueueManager;
  _conversation : Conversation.t;
  _start_at : Z
}.

(** Everything a run of the pipeline mutates: the world shared with the
    producer, the task state, the message record, the commits made and the
    signals sent, the clock, and the items the streaming generator has
    yielded so far. *)
Record heap : Type := {
  shared : world;
  _task_state : TaskState.t;
  _message : Message.t;
  commits : list Message.t;
  signals : list signal;
  clock_reads : nat;
  yielded : list yielded_item
}.

Definition set_shared (w : world) (h : heap) : heap :=
  {| shared := w; _task_state := _task_state h; _message := _message h;
     commits := commits h; signals := signals h; clock_reads := clock_reads h;
     yielded := yielded h |}.

Definition set_task_state (ts : TaskState.t) (h : heap) : heap :=
  {| shared := shared h; _task_state := ts; _message := _message h;
     commits := commits h; signals := signals h; clock_reads := clock_reads h;
     yielded := yielded h |}.

Definition set_message (m : Message.t) (h : heap) : heap :=
  {| shared := shared h; _task_state := _task_state h; _message := m;
     commits := commits h; signals := signals h; clock_reads := clock_reads h;
     yielded := yielded h |}.

Definition add_commit (h : heap) : heap :=
  {| shared := shared h; _task_state := _task_state h; _message := _message h;
     commits := commits h ++ [_message h]; signals := signals h;
     clock_reads := clock_reads h; yielded := yielded h |}.

Definition add_signal (s : signal) (h : heap) : heap :=
  {| shared := shared h; _task_state := _task_state h; _message := _message h;
     commits := commits h; signals := signals h ++ [s];
     clock_reads := clock_reads h; yielded := yielded h |}.

Definition tick_clock (h : heap) : heap :=
  {| shared := shared h; _task_state := _task_state h; _message := _message h;
     commits := commits h; signals := signals h;
     clock_reads := S (clock_reads h); yielded := yielded h |}.

Definition add_yielded (item : yielded_item) (h : heap) : heap :=
  {| shared := shared h; _task_state := _task_state h; _message := _message h;
     commits := commits h; signals := signals h; clock_reads := clock_reads h;
     yielded := yielded h ++ [item] |}.

(** A computation of the queue manager, run on the shared world. *)
Definition on_shared {A} (m : M world A) : M heap A :=
  fun h =>
    match m (shared h) with
    | (r, w) => (r, set_shared w h)
    end.

Definition set_llm_result (r : LLMResult) (ts : TaskState.t) : TaskState.t :=
  {| TaskState.llm_result := r; TaskState.metadata := TaskState.metadata ts |}.

Definition set_metadata (md : list (string * pyobj)) (ts : TaskState.t) : TaskState.t :=
  {| TaskState.llm_result := TaskState.llm_result ts; TaskState.metadata := md |}.

Definition with_usage (u : LLMUsage) (r : LLMResult) : LLMResult :=
  {| model := model r; prompt_messages := prompt_messages r;
     message_content := message_content r; usage := u |}.

Definition with_prompt_messages (p : list PromptMessage) (r : LLMResult) : LLMResult :=
  {| model := model r; prompt_messages := p;
     message_content := message_content r; usage := usage r |}.

Definition with_message_content (c : option string) (r : LLMResult) : LLMResult :=
  {| model := model r; prompt_messages := prompt_messages r;
     message_content := c; usage := usage r |}.

Definition zero_usage : LLMUsage :=
  {| prompt_tokens := 0; prompt_unit_price := 0; prompt_price_unit := 0;
     prompt_price := 0; completion_tokens := 0; completion_unit_price := 0;
     completion_price_unit := 0; completion_price := 0; total_tokens := 0;
     total_price := 0; currency := ""; latency := 0 |}.

(** The task state [GenerateTaskPipeline.__init__] builds. *)
Definition initial_task_state (age : ApplicationGenerateEntity.t) : TaskState.t :=
  {| TaskState.llm_result :=
       {| model := ModelConfig.model (AppOrchestrationConfigEntity.model_config
                     (ApplicationGenerateEntity.app_orchestration_config_entity age));
          prompt_messages := [];
          message_content := Some "";
          usage := zero_usage |};
     TaskState.metadata := [] |}.

(** The heap at the start of a run, over a given message record and world. *)
Definition initial_heap (age : ApplicationGenerateEntity.t) (m : Message.t)
    (w : world) : heap :=
  {| shared := w; _task_state := initial_task_state age; _message := m;
     commits := []; signals := []; clock_reads := 0%nat; yielded := [] |}.

(** [s[:n]] and [s[-n:]], cut character by character of the Rocq string: the
    slice Python takes, code point by code point, when the str is ASCII (one
    character per code point, see [ascii_only]). *)
Definition py_prefix (n : nat) (s : string) : string := String.substring 0 n s.
Definition py_suffix (n : nat) (s : string) : string :=
  String.substring (String.length s - n)%nat n s.

Definition newline : string := String (Ascii.ascii_of_nat 10) EmptyString.

Definition content_part_object (c : PromptMessageContent) : pyobj :=
  match c with
  | TextPromptMessageContent _ =>
      PyEntity "TextPromptMessageContent" (content_part_dict c)
  | ImagePromptMessageContent _ _ =>
      PyEntity "ImagePromptMessageContent" (content_part_dict c)
  end.

(** The value of [prompt_message.content] as an object. *)
Definition prompt_content_object (c : prompt_content) : pyobj :=
  match c with
  | ContentNone => PyNone
  | ContentStr s => PyStr s
  | ContentList parts => PyList (map content_part_object parts)
  end.

(** What [_process_blocking_response] returns: a response, or None when the
    loop ends without a [return]. *)
Inductive returned : Type :=
| Response (response : pyobj)
| ReturnsNone.

Section Pipeline.

Variable env : collaborators.
Variable self : GenerateTaskPipeline.

Definition model_config : ModelConfig.t :=
  AppOrchestrationConfigEntity.model_config
    (ApplicationGenerateEntity.app_orchestration_config_entity
       (_application_generate_entity self)).

Definition is_chat_conversation : bool :=
  String.eqb (Conversation.mode (_conversation self)) "chat".

(** [if self._conversation.mode == 'chat': response['conversation_id'] = ...] *)
Definition with_conversation_id (response : list (string * pyobj))
  : list (string * pyobj) :=
  if is_chat_conversation
  then dict_set "conversation_id" (PyStr (Conversation.id (_conversation self))) response
  else response.

(** The text and the file descriptors of a multi-part content. *)
Fixpoint text_and_files (parts : list PromptMessageContent) (text : string)
    (files : list pyobj) : string * list pyobj :=
  match parts with
  | [] => (text, files)
  | TextPromptMessageContent data :: rest =>
      text_and_files rest (text +:+ data) files
  | ImagePromptMessageContent data detail :: rest =>
      text_and_files rest text
        (files ++ [PyDict [("type", PyStr "image");
                           ("data", PyStr (py_prefix 10 data +:+ "...[TRUNCATED]..."
                                           +:+ py_suffix 10 data));
                           ("detail", PyStr detail)]])
  end.

(** One pass of the loop over the prompt messages of a chat model: a role
    outside user, assistant and system is skipped. *)
Definition prompt_for_saving (prompt_message : PromptMessage) : list pyobj :=
  let entry (role : string) :=
    let '(text, files) :=
      match content prompt_message with
      | ContentList parts =>
          let '(text, files) := text_and_files parts "" [] in (PyStr text, files)
      | c => (prompt_content_object c, [])
      end in
    [PyDict [("role", PyStr role); ("text", text); ("files", PyList files)]] in
  match role prompt_message with
  | USER => entry "user"
  | ASSISTANT => entry "assistant"
  | SYSTEM => entry "system"
  | TOOL => []
  end.

(** [_prompt_messages_to_prompt_for_saving] *)
Definition _prompt_messages_to_prompt_for_saving (prompt_messages : list PromptMessage)
  : result (list pyobj) :=
  if String.eqb (ModelConfig.mode model_config) "chat" then
    Ok (concat (map prompt_for_saving prompt_messages))
  else
    match prompt_messages with
    | [] => Raise IndexError
    | first :: _ =>
        Ok [PyDict [("role", PyStr "user");
                    ("text", prompt_content_object (content first))]]
    end.

(** [time.perf_counter()] *)
Definition read_clock : M heap Z :=
  h ← get_state;
  modify_state tick_clock;;
  mret (perf_counter env (clock_reads h)).

(** [_save_message] *)
Definition _save_message (llm_result : LLMResult) : M heap unit :=
  let usage := usage llm_result in
  h ← get_state;
  prompts ← lift_result (_prompt_messages_to_prompt_for_saving
                           (prompt_messages (TaskState.llm_result (_task_state h))));
  let answer :=
    match message_content llm_result with
    | Some c => if String.eqb c "" then ""
                else remove_template_variables env (strip env c)
    | None => ""
    end in
  now ← read_clock;
  modify_state (fun h =>
    set_message
      {| Message.id := Message.id (_message h);
         Message.created_at := Message.created_at (_message h);
         Message.message := prompts;
         Message.message_tokens := prompt_tokens usage;
         Message.message_unit_price := prompt_unit_price usage;
         Message.message_price_unit := prompt_price_unit usage;
         Message.answer := answer;
         Message.answer_tokens := completion_tokens usage;
         Message.answer_unit_price := completion_unit_price usage;
         Message.answer_price_unit := completion_price_unit usage;
         Message.provider_response_latency := now - _start_at self;
         Message.total_price := total_price usage |} h);;
  (* db.session.commit() *)
  modify_state add_commit;;
  (* message_was_created.send(...) *)
  modify_state (fun h =>
    add_signal
      {| sender := _message h;
         signal_conversation := _conversation self;
         is_first_message :=
           match ApplicationGenerateEntity.conversation_id
                   (_application_generate_entity self) with
           | None => true
           | Some _ => false
           end;
         signal_extras :=
           ApplicationGenerateEntity.extras (_application_generate_entity self) |} h).

(** [_handle_chunk] *)
Definition _handle_chunk (m : Message.t) (text : string) : list (string * pyobj) :=
  with_conversation_id
    [("event", PyStr "message");
     ("task_id", PyStr (ApplicationGenerateEntity.task_id (_application_generate_entity self)));
     ("message_id", PyStr (Message.id m));
     ("answer", PyStr text);
     ("created_at", PyInt (Message.created_at m))].

(** [_handle_error]: the exception to raise for an error event. *)
Definition _handle_error (e : error_obj) : pyexn :=
  match e with
  | InvokeAuthorizationError _ =>
      RaisedError (InvokeAuthorizationError "Incorrect API key provided")
  | InvokeError _ | ValueError _ => RaisedError e
  | OtherError description str =>
      Exception (match description with Some d => d | None => str end)
  end.

(** [_yield_response]: a generator of one block. *)
Definition _yield_response (response : list (string * pyobj)) : list sse_block :=
  [DataBlock (PyDict response)].

(** [yield item] in the streaming generator, the consumer taking every item. *)
Definition yield_ (item : yielded_item) : M heap unit :=
  modify_state (add_yielded item).

(** [response[k1][k2] = v] *)
Definition setitem2 (k1 k2 : string) (v : pyobj) (response : list (string * pyobj))
  : result (list (string * pyobj)) :=
  match dict_get k1 response with
  | None => Raise (KeyError k1)
  | Some (PyDict inner) => Ok (dict_set k1 (PyDict (dict_set k2 v inner)) response)
  | Some _ => Raise (TypeError "object does not support item assignment")
  end.

(** The body of the loop of [_process_blocking_response] for one message:
    [Some r] is [return r], [None] goes on with the loop. *)
Definition blocking_body (event : AppQueueEvent) : M heap (option pyobj) :=
  match event with
  | QueueErrorEvent error => raise (_handle_error error)
  | QueueRetrieverResourcesEvent retriever_resources =>
      modify_state (fun h =>
        set_task_state
          (set_metadata (dict_set "retriever_resources" (PyList retriever_resources)
                           (TaskState.metadata (_task_state h)))
             (_task_state h)) h);;
      mret None
  | QueueMessageEndEvent llm_result =>
      _save_message llm_result;;
      h ← get_state;
      let response :=
        [("event", PyStr "message");
         ("task_id", PyStr (ApplicationGenerateEntity.task_id
                              (_application_generate_entity self)));
         ("id", PyStr (Message.id (_message h)));
         ("mode", PyStr (Conversation.mode (_conversation self)));
         ("answer", option_str (message_content llm_result));
         ("metadata", PyDict []);
         ("created_at", PyInt (Message.created_at (_message h)))] in
      let response := with_conversation_id response in
      response ←
        match TaskState.metadata (_task_state h) with
        | [] => mret response
        | _ :: _ =>
            lift_result (setitem2 "data" "metadata"
                           (PyDict (TaskState.metadata (_task_state h))) response)
        end;
      mret (Some (PyDict response))
  | _ => mret None
  end.

(** The body of the loop of [_process_stream_response] for one message. *)
Definition stream_body (event : AppQueueEvent) : M heap unit :=
  match event with
  | QueueErrorEvent error => raise (_handle_error error)
  | QueueStopEvent | QueueMessageEndEvent _ =>
      match event with
      | QueueMessageEndEvent llm_result =>
          modify_state (fun h => set_task_state (set_llm_result llm_result (_task_state h)) h)
      | _ =>
          modify_state (fun h =>
            let llm_result := TaskState.llm_result (_task_state h) in
            let model := ModelConfig.model model_config in
            let prompt_tokens :=
              get_num_tokens env model (prompt_messages llm_result) in
            let completion_tokens :=
              get_num_tokens env model
                [{| role := ASSISTANT;
                    content := match message_content llm_result with
                               | Some c => ContentStr c
                               | None => ContentNone
                               end |}] in
            let credentials := ModelConfig.credentials model_config in
            set_task_state
              (set_llm_result
                 (with_usage (_calc_response_usage env model credentials
                                prompt_tokens completion_tokens) llm_result)
                 (_task_state h)) h)
      end;;
      h ← get_state;
      _save_message (TaskState.llm_result (_task_state h));;
      h ← get_state;
      let response :=
        [("event", PyStr "message_end");
         ("task_id", PyStr (ApplicationGenerateEntity.task_id
                              (_application_generate_entity self)));
         ("id", PyStr (Message.id (_message h)))] in
      let response := with_conversation_id response in
      let response :=
        match TaskState.metadata (_task_state h) with
        | [] => response
        | _ :: _ => dict_set "metadata" (PyDict (TaskState.metadata (_task_state h))) response
        end in
      yield_ (YieldGenerator (_yield_response response))
  | QueueRetrieverResourcesEvent retriever_resources =>
      modify_state (fun h =>
        set_task_state
          (set_metadata (dict_set "retriever_resources" (PyList retriever_resources)
                           (TaskState.metadata (_task_state h)))
             (_task_state h)) h)
  | QueueAgentThoughtEvent agent_thought_id =>
      match first_agent_thought env agent_thought_id with
      | Some agent_thought =>
          h ← get_state;
          let response :=
            [("event", PyStr "agent_thought");
             ("id", PyStr (MessageAgentThought.id agent_thought));
             ("task_id", PyStr (ApplicationGenerateEntity.task_id
                                  (_application_generate_entity self)));
             ("message_id", PyStr (Message.id (_message h)));
             ("position", PyInt (MessageAgentThought.position agent_thought));
             ("thought", PyStr (MessageAgentThought.thought agent_thought));
             ("tool", PyStr (MessageAgentThought.tool agent_thought));
             ("tool_input", PyStr (MessageAgentThought.tool_input agent_thought));
             ("created_at", PyInt (Message.created_at (_message h)))] in
          yield_ (YieldGenerator (_yield_response (with_conversation_id response)))
      | None => mret tt
      end
  | QueueMessageEvent chunk =>
      match delta_message_content chunk with
      | None => mret tt     (* continue *)
      | Some delta_text =>
          modify_state (fun h =>
            match prompt_messages (TaskState.llm_result (_task_state h)) with
            | [] =>
                set_task_state
                  (set_llm_result
                     (with_prompt_messages (chunk_prompt_messages chunk)
                        (TaskState.llm_result (_task_state h)))
                     (_task_state h)) h
            | _ :: _ => h
            end);;
          h ← get_state;
          match message_content (TaskState.llm_result (_task_state h)) with
          | None => raise (TypeError "unsupported operand type(s) for +=")
          | Some c =>
              modify_state (fun h =>
                set_task_state
                  (set_llm_result
                     (with_message_content (Some (c +:+ delta_text))
                        (TaskState.llm_result (_task_state h)))
                     (_task_state h)) h);;
              h ← get_state;
              yield_ (YieldGenerator
                        (_yield_response (_handle_chunk (_message h) delta_text)))
          end
      end
  | QueueMessageReplaceEvent text =>
      h ← get_state;
      let response :=
        [("event", PyStr "message_replace");
         ("task_id", PyStr (ApplicationGenerateEntity.task_id
                              (_application_generate_entity self)));
         ("message_id", PyStr (Message.id (_message h)));
         ("answer", PyStr text);
         ("created_at", PyInt (Message.created_at (_message h)))] in
      yield_ (YieldGenerator (_yield_response (with_conversation_id response)))
  | QueuePingEvent =>
      yield_ (YieldStr ("event: ping" +:+ newline +:+ newline))
  end.

(** [for queue_message in self._queue_manager.listen(): ...] of the blocking
    assembler; [fuel] bounds the messages taken, [None] is fuel run out. *)
Fixpoint blocking_for (fuel : nat) (g : generator) : M heap (option returned) :=
  match fuel with
  | O => mret None
  | S fuel' =>
      next ← on_shared (listen_next (_queue_manager self) g);
      match next with
      | None => mret None
      | Some (StopIteration, _) => mret (Some ReturnsNone)
      | Some (Yield queue_message, g') =>
          r ← blocking_body (event queue_message);
          match r with
          | Some response => mret (Some (Response response))
          | None => blocking_for fuel' g'
          end
      end
  end.

(** [for message in self._queue_manager.listen(): ...] of the streaming
    assembler, driven by a consumer that takes every item. *)
Fixpoint stream_for (fuel : nat) (g : generator) : M heap (option unit) :=
  match fuel with
  | O => mret None
  | S fuel' =>
      next ← on_shared (listen_next (_queue_manager self) g);
      match next with
      | None => mret None
      | Some (StopIteration, _) => mret (Some tt)
      | Some (Yield message, g') =>
          stream_body (event message);;
          stream_for fuel' g'
      end
  end.

(** The countdown starts at 600 and every message taken costs one tick, so
    no run takes more messages than this (see [stream_for_total]). *)
Definition assembler_fuel : nat := 602.

Definition _process_blocking_response : M heap (option returned) :=
  blocking_for assembler_fuel GenCreated.

Definition _process_stream_response : M heap (option unit) :=
  stream_for assembler_fuel GenCreated.

End Pipeline.

(** ** Vocabulary of the statements *)

(** The envelope [publish] wraps an event in. *)
Definition envelope (self : ApplicationQueueManager) (e : AppQueueEvent)
  : QueueMessage :=
  {| task_id := _task_id self; message_id := _message_id self;
     conversation_id := _conversation_id self; app_mode := _app_mode self;
     event := e |}.

Definition is_ping_item (item : option QueueMessage) : bool :=
  match item with
  | Some m => match event m with QueuePingEvent => true | _ => false end
  | None => false
  end.

(** The Ping envelopes in a queue. *)
Definition count_pings (items : list (option QueueMessage)) : nat :=
  length (filter (fun item => is_ping_item item = true) items).

(** The sentinels in a queue. *)
Definition count_sentinels (items : list (option QueueMessage)) : nat :=
  length (filter (fun item => item = None) items).

(** The stop flag of the task is in the store. *)
Definition stop_flag_set (self : ApplicationQueueManager) (w : world) : Prop :=
  is_Some (redis w !! _generate_stopped_cache_key (_task_id self)).

(** The ownership record of the task names this identity. *)
Definition owner_is (self : ApplicationQueueManager) (identity : string)
    (w : world) : Prop :=
  exists t, redis w !! _generate_task_belong_cache_key (_task_id self)
            = Some {| ttl := t; value := RStr identity |}.

(** The countdown a generator goes on with at its next resumption. *)
Definition generator_budget (g : generator) : Z :=
  match g with
  | GenCreated => 600
  | GenSuspended listen_timeout => listen_timeout - 1
  | GenFinished => 0
  end.

(** The events the Listener hands over, in order, to a consumer that resumes
    the generator after every message, up to its return or exception. *)
Fixpoint handed_over (qm : ApplicationQueueManager) (fuel : nat) (g : generator)
    (w : world) : list AppQueueEvent :=
  match fuel with
  | O => []
  | S fuel' =>
      match listen_next qm g w with
      | (Ok (Some (Yield message, g')), w') =>
          event message :: handed_over qm fuel' g' w'
      | _ => []
      end
  end.

(** [isinstance(event, (QueueStopEvent, QueueMessageEndEvent))] *)
Definition is_terminal (e : AppQueueEvent) : bool :=
  match e with
  | QueueStopEvent | QueueMessageEndEvent _ => true
  | _ => false
  end.

Definition count_terminal (events : list AppQueueEvent) : nat :=
  length (filter (fun e => is_terminal e = true) events).

Definition terminal_count (e : AppQueueEvent) : nat :=
  if is_terminal e then 1%nat else 0%nat.

(** The streaming loop body over the events the Listener hands over, one
    after the other, up to the first exception. *)
Fixpoint stream_events (env : collaborators) (self : GenerateTaskPipeline)
    (events : list AppQueueEvent) : M heap unit :=
  match events with
  | [] => mret tt
  | e :: rest => stream_body env self e;; stream_events env self rest
  end.

(** The events, of those the Listener hands over, that the streaming loop
    handles: the loop body runs on them one after the other and the run ends
    at the first one on which it raises, which is not handled. *)
Fixpoint completed (env : collaborators) (self : GenerateTaskPipeline)
    (events : list AppQueueEvent) (h : heap) : list AppQueueEvent :=
  match events with
  | [] => []
  | e :: rest =>
      match stream_body env self e h with
      | (Ok _, h1) => e :: completed env self rest h1
      | (Raise _, _) => []
      end
  end.

Definition is_message_end_frame (item : yielded_item) : bool :=
  match item with
  | YieldGenerator [DataBlock (PyDict response)] =>
      match dict_get "event" response with
      | Some (PyStr kind) => String.eqb kind "message_end"
      | _ => false
      end
  | _ => false
  end.

Definition count_message_end (items : list yielded_item) : nat :=
  length (filter (fun item => is_message_end_frame item = true) items).

(** TaskState's assembled text and prompt messages. *)
Definition assembled_text (h : heap) : option string :=
  message_content (TaskState.llm_result (_task_state h)).

Definition stored_prompt_messages (h : heap) : list PromptMessage :=
  prompt_messages (TaskState.llm_result (_task_state h)).

Definition with_assembled_text (c : option string) (h : heap) : heap :=
  set_task_state
    (set_llm_result (with_message_content c (TaskState.llm_result (_task_state h)))
       (_task_state h)) h.

(** A MessageChunk event with this delta text and no prompt messages. *)
Definition delta_event (delta_text : string) : AppQueueEvent :=
  QueueMessageEvent {| chunk_prompt_messages := [];
                       delta_message_content := Some delta_text |}.

(** A MessageChunk event with these prompt messages and this delta text. *)
Definition chunk_event (c : list PromptMessage * string) : AppQueueEvent :=
  QueueMessageEvent {| chunk_prompt_messages := fst c;
                       delta_message_content := Some (snd c) |}.

(** The deltas put one after the other. *)
Definition concat_text (deltas : list string) : string :=
  fold_right String.append "" deltas.

(** The prompt messages of the first chunk that has a delta text and carries
    prompt messages; the empty list when there is none. *)
Fixpoint first_prompt_messages (chunks : list LLMResultChunk) : list PromptMessage :=
  match chunks with
  | [] => []
  | c :: rest =>
      match delta_message_content c, chunk_prompt_messages c with
      | Some _, p :: ps => p :: ps
      | _, _ => first_prompt_messages rest
      end
  end.

(** The reading of the specification: the prompt messages of the first chunk
    that carries prompt messages, whatever its delta text. *)
Fixpoint claimed_prompt_messages (chunks : list LLMResultChunk) : list PromptMessage :=
  match chunks with
  | [] => []
  | c :: rest =>
      match chunk_prompt_messages c with
      | p :: ps => p :: ps
      | [] => claimed_prompt_messages rest
      end
  end.

(** ** A concrete task, for the runs evaluated below *)

Definition sample_manager : ApplicationQueueManager :=
  {| _task_id := "task-1"; _user_id := "42"; _invoke_from := EXPLORE;
     _conversation_id := "conv-1"; _app_mode := "chat"; _message_id := "msg-1" |}.

Definition sample_env : collaborators :=
  {| get_num_tokens := fun _ messages => Z.of_nat (length messages);
     _calc_response_usage := fun _ _ p c =>
       {| prompt_tokens := p; prompt_unit_price := 0; prompt_price_unit := 0;
          prompt_price := 0; completion_tokens := c; completion_unit_price := 0;
          completion_price_unit := 0; completion_price := 0;
          total_tokens := p + c; total_price := 0; currency := "USD"; latency := 0 |};
     remove_template_variables := fun s => s;
     strip := fun s => s;
     first_agent_thought := fun _ => None;
     perf_counter := fun n => Z.of_nat n |}.

Definition sample_entity : ApplicationGenerateEntity.t :=
  {| ApplicationGenerateEntity.task_id := "task-1";
     ApplicationGenerateEntity.conversation_id := Some "conv-1";
     ApplicationGenerateEntity.extras := PyDict [];
     ApplicationGenerateEntity.app_orchestration_config_entity :=
       {| AppOrchestrationConfigEntity.model_config :=
            {| ModelConfig.model := "gpt-4"; ModelConfig.mode := "chat";
               ModelConfig.credentials := PyDict [] |} |} |}.

Definition sample_pipeline : GenerateTaskPipeline :=
  {| _application_generate_entity := sample_entity;
     _queue_manager := sample_manager;
     _conversation := {| Conversation.id := "conv-1"; Conversation.mode := "chat" |};
     _start_at := 0 |}.

Definition sample_message : Message.t :=
  {| Message.id := "msg-1"; Message.created_at := 1700000000;
     Message.message := []; Message.message_tokens := 0;
     Message.message_unit_price := 0; Message.message_price_unit := 0;
     Message.answer := ""; Message.answer_tokens := 0;
     Message.answer_unit_price := 0; Message.answer_price_unit := 0;
     Message.provider_response_latency := 0; Message.total_price := 0 |}.

Definition sample_result : LLMResult :=
  {| model := "gpt-4"; prompt_messages := []; message_content := Some "Hello world";
     usage := zero_usage |}.

Definition sample_world (items : list (option QueueMessage)) : world :=
  {| q := items; redis := ∅ |}.

(** The world in which a stop flag has been written for the sample task. *)
Definition flagged_world (items : list (option QueueMessage)) : world :=
  {| q := items;
     redis := {[ _generate_stopped_cache_key "task-1" := {| ttl := 600; value := RInt 1 |} ]} |}.

(** The world in which the sample task is recorded as owned by account 42. *)
Definition owned_world : world :=
  {| q := [];
     redis := {[ _generate_task_belong_cache_key "task-1" :=
                   {| ttl := 1800; value := RStr "account-42" |} ]} |}.

(** A requester with another identity asking to stop the sample task. *)
Definition other_requester : ApplicationQueueManager :=
  {| _task_id := "task-1"; _user_id := "7"; _invoke_from := OTHER_SOURCE "web-app";
     _conversation_id := "conv-1"; _app_mode := "chat"; _message_id := "msg-1" |}.

Definition sample_heap (items : list (option QueueMessage)) : heap :=
  initial_heap sample_entity sample_message (sample_world items).

Definition queued (e : AppQueueEvent) : option QueueMessage :=
  Some (envelope sample_manager e).

Definition user_prompt (text : string) : PromptMessage :=
  {| role := USER; content := ContentStr text |}.

(** ** Vocabulary of the further properties *)

(** How a run of the generator [listen] ends. *)
Inductive listen_end : Type :=
| Returned
| Raised (e : pyexn)
| Unfinished.

(** The generator taken to its end by a consumer that resumes it after every
    message: the messages yielded in order, how it ended, and the world it
    leaves. *)
Fixpoint listen_drain (qm : ApplicationQueueManager) (fuel : nat) (g : generator)
    (w : world) : list QueueMessage * listen_end * world :=
  match fuel with
  | O => ([], Unfinished, w)
  | S fuel' =>
      match listen_next qm g w with
      | (Ok (Some (Yield message, g')), w') =>
          let '(messages, ending, w'') := listen_drain qm fuel' g' w' in
          (message :: messages, ending, w'')
      | (Ok (Some (StopIteration, _)), w') => ([], Returned, w')
      | (Ok None, w') => ([], Unfinished, w')
      | (Raise e, w') => ([], Raised e, w')
      end
  end.

(** The roles [_prompt_messages_to_prompt_for_saving] keeps for a chat model. *)
Definition is_saved_role (p : PromptMessage) : bool :=
  match role p with
  | TOOL => false
  | _ => true
  end.

(** The [role] entry of a saved prompt record. *)
Definition saved_role (record : pyobj) : option string :=
  match record with
  | PyDict items =>
      match dict_get "role" items with
      | Some (PyStr r) => Some r
      | _ => None
      end
  | _ => None
  end.




(** [isinstance(event, QueueErrorEvent)] or
    [isinstance(event, QueueMessageEndEvent)]: the events on which the loop
    of the blocking assembler raises or returns. *)
Definition ends_blocking_loop (e : AppQueueEvent) : bool :=
  match e with
  | QueueErrorEvent _ | QueueMessageEndEvent _ => true
  | _ => false
  end.

(** The keepalive frame, written out: [event: ping] and two line feeds
    (character 10, least significant bit first). *)
Definition keepalive_string : string :=
  "event: ping" +:+
  String (Ascii.Ascii false true false true false false false false)
    (String (Ascii.Ascii false true false true false false false false) EmptyString).

(** A yielded item is the keepalive frame, a str, or the generator object
    [_yield_response] returns: a generator of exactly one block, whose
    response carries [conversation_id] exactly in a chat conversation. *)
Definition yielded_item_as_expected (self : GenerateTaskPipeline)
    (item : yielded_item) : Prop :=
  match item with
  | YieldStr s => s = keepalive_string
  | YieldGenerator [DataBlock (PyDict response)] =>
      dict_get "conversation_id" response =
        if is_chat_conversation self
        then Some (PyStr (Conversation.id (_conversation self)))
        else None
  | YieldGenerator _ => False
  end.

(** The answer [_save_message] stores for a text. *)
Definition answer_for_saving (env : collaborators) (text : option string) : string :=
  match text with
  | Some c => if String.eqb c "" then "" else remove_template_variables env (strip env c)
  | None => ""
  end.



(** A task run by a completion model, for the runs evaluated below. *)
Definition completion_entity : ApplicationGenerateEntity.t :=
  {| ApplicationGenerateEntity.task_id := "task-2";
     ApplicationGenerateEntity.conversation_id := None;
     ApplicationGenerateEntity.extras := PyDict [];
     ApplicationGenerateEntity.app_orchestration_config_entity :=
       {| AppOrchestrationConfigEntity.model_config :=
            {| ModelConfig.model := "text-davinci"; ModelConfig.mode := "completion";
               ModelConfig.credentials := PyDict [] |} |} |}.

Definition completion_pipeline : GenerateTaskPipeline :=
  {| _application_generate_entity := completion_entity;
     _queue_manager := sample_manager;
     _conversation := {| Conversation.id := "conv-2"; Conversation.mode := "completion" |};
     _start_at := 0 |}.

(** * Properties *)

(** Unfolds the monad so that a computation applied to a state reduces. *)
Ltac run_monad :=
  unfold mbind, M_bind, mret, M_ret, raise, get_state, modify_state, lift_result;
  simpl.

(** ** The queue manager *)

Lemma publish_stop_raises (self : ApplicationQueueManager) (w : world) :
  publish self QueueStopEvent w =
    (Raise ConversationTaskStoppedException,
     set_q (fun l => l ++ [Some (envelope self QueueStopEvent)]) w).
Proof. reflexivity. Qed.

Lemma publish_ping_returns (self : ApplicationQueueManager) (w : world) :
  publish self QueuePingEvent w =
    (Ok tt, set_q (fun l => l ++ [Some (envelope self QueuePingEvent)]) w).
Proof. reflexivity. Qed.

Lemma _is_stopped_eq (self : ApplicationQueueManager) (w : world) :
  _is_stopped self w =
    match redis w !! _generate_stopped_cache_key (_task_id self) with
    | Some _ =>
        (Ok true, set_redis (fun r => delete (_generate_stopped_cache_key (_task_id self)) r) w)
    | None => (Ok false, w)
    end.
Proof.
  unfold _is_stopped, redis_get, redis_delete. run_monad.
  destruct (redis w !! _generate_stopped_cache_key (_task_id self)); reflexivity.
Qed.

(** The finally clause, case by case. *)
Lemma listen_finally_eq (self : ApplicationQueueManager) (lt : Z) (w : world) :
  listen_finally self lt w =
    if lt - 1 <=? 0 then
      (Raise ConversationTaskStoppedException,
       set_q (fun l => l ++ [Some (envelope self QueueStopEvent)]) w)
    else
      match redis w !! _generate_stopped_cache_key (_task_id self) with
      | Some _ =>
          (Raise ConversationTaskStoppedException,
           set_q (fun l => l ++ [Some (envelope self QueueStopEvent)])
             (set_redis (fun r => delete (_generate_stopped_cache_key (_task_id self)) r) w))
      | None =>
          if (0 <? lt - 1) && ((lt - 1) mod 10 =? 0)
          then (Ok (lt - 1), set_q (fun l => l ++ [Some (envelope self QueuePingEvent)]) w)
          else (Ok (lt - 1), w)
      end.
Proof.
  unfold listen_finally.
  destruct (lt - 1 <=? 0) eqn:Hle.
  - unfold mbind at 1, M_bind at 1. unfold mret at 1, M_ret at 1.
    unfold mbind at 1, M_bind at 1. unfold mbind at 1, M_bind at 1.
    rewrite publish_stop_raises. reflexivity.
  - unfold mbind at 1, M_bind at 1. rewrite _is_stopped_eq.
    destruct (redis w !! _generate_stopped_cache_key (_task_id self)).
    + unfold mbind at 1, M_bind at 1. unfold mbind at 1, M_bind at 1.
      rewrite publish_stop_raises. reflexivity.
    + destruct ((0 <? lt - 1) && ((lt - 1) mod 10 =? 0)); reflexivity.
Qed.

Lemma listen_finally_ok (self : ApplicationQueueManager) (lt lt' : Z) (w w' : world) :
  listen_finally self lt w = (Ok lt', w') -> lt' = lt - 1 /\ 0 < lt'.
Proof.
  rewrite listen_finally_eq.
  destruct (lt - 1 <=? 0) eqn:Hle; [discriminate |].
  apply Z.leb_gt in Hle.
  destruct (redis w !! _generate_stopped_cache_key (_task_id self)); [discriminate |].
  destruct ((0 <? lt - 1) && ((lt - 1) mod 10 =? 0));
    intros [= <- _]; split; (reflexivity || lia).
Qed.



Lemma count_sentinels_snoc_message (l : list (option QueueMessage)) (m : QueueMessage) :
  count_sentinels (l ++ [Some m]) = count_sentinels l.
Proof.
  unfold count_sentinels. rewrite filter_app, length_app.
  rewrite filter_cons_False by discriminate. simpl. lia.
Qed.

Lemma count_pings_snoc (l : list (option QueueMessage)) (m : QueueMessage) :
  count_pings (l ++ [Some m]) =
    (count_pings l + if is_ping_item (Some m) then 1 else 0)%nat.
Proof.
  unfold count_pings. rewrite filter_app, length_app. f_equal.
  destruct (is_ping_item (Some m)) eqn:Hm.
  - rewrite filter_cons_True by exact Hm. reflexivity.
  - rewrite filter_cons_False by (rewrite Hm; discriminate). reflexivity.
Qed.

(** C2 (what the code does where the claim fails): when the countdown runs
    out or the stop flag is observed, the finally clause of [listen] enqueues
    the Stop envelope and [publish] raises ConversationTaskStoppedException
    right there: [stop_listen] is not reached, no sentinel is enqueued, and
    the generator resumed in that state ends by the exception instead of
    yielding the Stop message or returning. *)
Theorem C2_stop_raises_before_sentinel
    (self : ApplicationQueueManager) (lt : Z) (w : world) :
  lt - 1 <= 0 \/ stop_flag_set self w ->
  exists w',
    listen_finally self lt w = (Raise ConversationTaskStoppedException, w') /\
    q w' = q w ++ [Some (envelope self QueueStopEvent)] /\
    count_sentinels (q w') = count_sentinels (q w) /\
    listen_next self (GenSuspended lt) w = (Raise ConversationTaskStoppedException, w').
Proof.
  intros H.
  assert (Hfin : exists w',
    listen_finally self lt w = (Raise ConversationTaskStoppedException, w') /\
    q w' = q w ++ [Some (envelope self QueueStopEvent)]).
  { rewrite listen_finally_eq.
    destruct (lt - 1 <=? 0) eqn:Hle.
    - eexists; split; reflexivity.
    - apply Z.leb_gt in Hle. destruct H as [H | [entry H]]; [lia |].
      unfold stop_flag_set in *. rewrite H. eexists; split; reflexivity. }
  destruct Hfin as (w' & Hfin & Hq).
  exists w'. repeat split; try assumption.
  - rewrite Hq. apply count_sentinels_snoc_message.
  - unfold listen_next, mbind, M_bind. rewrite Hfin. reflexivity.
Qed.

Lemma C2_stop_raises_before_sentinel_witness :
  (1 - 1 <= 0 \/ stop_flag_set sample_manager (sample_world [])) /\
  exists w',
    listen_finally sample_manager 1 (sample_world []) =
      (Raise ConversationTaskStoppedException, w') /\
    q w' = q (sample_world []) ++ [Some (envelope sample_manager QueueStopEvent)] /\
    count_sentinels (q w') = count_sentinels (q (sample_world [])) /\
    listen_next sample_manager (GenSuspended 1) (sample_world []) =
      (Raise ConversationTaskStoppedException, w').
Proof.
  split.
  - left. lia.
  - apply (C2_stop_raises_before_sentinel sample_manager 1 (sample_world [])).
    left. lia.
Defined.

(** A producer that never publishes: the streaming assembler takes the 59
    keepalives, then the 600th tick raises; the Stop envelope stays in the
    queue, no sentinel follows it and no message_end frame was yielded. *)
Lemma idle_listener_run :
  let r := _process_stream_response sample_env sample_pipeline (sample_heap []) in
  fst r = Raise ConversationTaskStoppedException /\
  q (shared (snd r)) = [queued QueueStopEvent] /\
  count_message_end (yielded (snd r)) = 0%nat /\
  length (yielded (snd r)) = 59%nat /\
  commits (snd r) = [].
Proof. vm_compute. repeat split. Qed.

(** The same at the first tick when the stop flag is set. *)
Lemma cancelled_listener_run :
  let r := _process_stream_response sample_env sample_pipeline
             (initial_heap sample_entity sample_message (flagged_world [])) in
  fst r = Raise ConversationTaskStoppedException /\
  q (shared (snd r)) = [queued QueueStopEvent] /\
  yielded (snd r) = [] /\
  commits (snd r) = [].
Proof. vm_compute. repeat split. Qed.

(** C9 (what the code does, tick by tick): the finally clause of the [k]-th
    iteration runs with the countdown at [601 - k]. It enqueues a Ping exactly
    when [k] is a multiple of 10, the budget [600 - k] left is positive and
    the stop flag is not observed at that tick; at a tick where the flag is
    observed [publish] raises before the keepalive test. *)
Theorem C9_ping_ticks (self : ApplicationQueueManager) (k : Z) (w : world) :
  count_pings (q (snd (listen_finally self (601 - k) w))) =
    (count_pings (q w) +
     if (k mod 10 =? 0)%Z && (k <? 600)%Z
        && negb (bool_decide (stop_flag_set self w))
     then 1 else 0)%nat.
Proof.
  rewrite listen_finally_eq.
  replace (601 - k - 1) with (600 - k) by lia.
  destruct (600 - k <=? 0) eqn:Hle.
  - apply Z.leb_le in Hle.
    assert ((k <? 600) = false) as -> by (apply Z.ltb_ge; lia).
    rewrite andb_false_r. simpl. rewrite count_pings_snoc. reflexivity.
  - apply Z.leb_gt in Hle.
    assert ((k <? 600) = true) as -> by (apply Z.ltb_lt; lia).
    assert ((0 <? 600 - k) = true) as -> by (apply Z.ltb_lt; lia).
    assert (((600 - k) mod 10 =? 0) = (k mod 10 =? 0)) as ->.
    { destruct (k mod 10 =? 0) eqn:Hk.
      - apply Z.eqb_eq in Hk. apply Z.eqb_eq.
        revert Hk. Z.div_mod_to_equations. lia.
      - apply Z.eqb_neq in Hk. apply Z.eqb_neq.
        revert Hk. Z.div_mod_to_equations. lia. }
    rewrite andb_true_r. simpl.
    unfold stop_flag_set.
    destruct (redis w !! _generate_stopped_cache_key (_task_id self)) eqn:Hflag.
    + rewrite bool_decide_eq_true_2 by eauto.
      rewrite andb_false_r. simpl. rewrite count_pings_snoc. reflexivity.
    + rewrite bool_decide_eq_false_2 by (intros [? ?]; discriminate).
      rewrite andb_true_r.
      destruct (k mod 10 =? 0); simpl; [| lia].
      rewrite count_pings_snoc. reflexivity.
Qed.

(** Tick 10 with the stop flag set: the budget left is 590 and no Ping is
    enqueued; without the flag the Ping is there. *)
Lemma tick_10_cancelled_no_ping :
  0 < 600 - 10 /\
  listen_finally sample_manager (601 - 10) (flagged_world []) =
    (Raise ConversationTaskStoppedException,
     {| q := [queued QueueStopEvent]; redis := ∅ |}) /\
  count_pings (q (snd (listen_finally sample_manager (601 - 10) (flagged_world [])))) = 0%nat /\
  q (snd (listen_finally sample_manager (601 - 10) (sample_world []))) =
    [queued QueuePingEvent].
Proof. vm_compute. repeat split. Qed.

(** What [publish] does, by the event: only the events without a field get
    through the scan; every other event has a first field value that has no
    [dict] method. *)
Lemma publish_eq (self : ApplicationQueueManager) (e : AppQueueEvent) (w : world) :
  publish self e w =
    match e with
    | QueuePingEvent =>
        (Ok tt, set_q (fun l => l ++ [Some (envelope self e)]) w)
    | QueueStopEvent =>
        (Raise ConversationTaskStoppedException,
         set_q (fun l => l ++ [Some (envelope self e)]) w)
    | _ => (Raise (AttributeError "dict"), w)
    end.
Proof.
  destruct e as [| | error | chunk | text | llm_result | resources | thought];
    try reflexivity.
  destruct error; reflexivity.
Qed.

(** C3 (amended): [publish] raises ConversationTaskStoppedException exactly
    when the event it is given is a Stop event, after it has enqueued the
    Stop envelope, whatever the state of the task; for no other event does
    it raise that signal, cancelled task or not. *)
Theorem C3_publish_raises_for_stop_only
    (self : ApplicationQueueManager) (e : AppQueueEvent) (w : world) :
  (fst (publish self e w) = Raise ConversationTaskStoppedException
   <-> e = QueueStopEvent) /\
  q (snd (publish self QueueStopEvent w)) =
    q w ++ [Some (envelope self QueueStopEvent)].
Proof.
  rewrite publish_eq. split.
  - destruct e; simpl; split; intros H; try discriminate; reflexivity.
  - reflexivity.
Qed.

(** C3 fails as stated: the Listener has observed the stop flag and enqueued
    the Stop envelope (cancellation has taken effect), and the producer's
    next [publish], of a Ping, returns normally with the Ping enqueued. *)
Lemma C3_counterexample :
  let cancelled := listen_next sample_manager GenCreated (flagged_world []) in
  fst cancelled = Raise ConversationTaskStoppedException /\
  q (snd cancelled) = [queued QueueStopEvent] /\
  fst (publish sample_manager QueuePingEvent (snd cancelled))
    <> Raise ConversationTaskStoppedException /\
  publish sample_manager QueuePingEvent (snd cancelled) =
    (Ok tt, sample_world [queued QueueStopEvent; queued QueuePingEvent]).
Proof. vm_compute. repeat split. discriminate. Qed.

Lemma append_inj_l (p a b : string) : p +:+ a = p +:+ b -> a = b.
Proof.
  induction p as [| c p IH]; [intros H; exact H |].
  change (String c (p +:+ a) = String c (p +:+ b) -> a = b).
  intros [= H]. apply IH, H.
Qed.

Lemma cache_keys_apart (task other : string) :
  _generate_stopped_cache_key task <> _generate_task_belong_cache_key other.
Proof.
  unfold _generate_stopped_cache_key, _generate_task_belong_cache_key. discriminate.
Qed.

(** C4: [set_stop_flag] always returns, never touches the queue, and writes
    the stop flag with TTL 600 exactly when the ownership record of the task
    exists and holds the requester's prefixed identity ([account-<id>] from
    EXPLORE and DEBUGGER, [end-user-<id>] from anywhere else); otherwise the
    world is left as it was, so a Listener that saw no flag before sees none
    after. The flag and the record are those of this task: the record is
    read under [generate_task_belong:<task id>], the flag written under
    [generate_task_stopped:<task id>], the two keys determine the task id
    and never coincide, and whatever the outcome every other key of the
    store, the flag of every other task and every ownership record with it,
    is as before. *)
Theorem C4_set_stop_flag_owner_only (self : ApplicationQueueManager) (w : world) :
  let identity := prefixed_identity (_invoke_from self) (_user_id self) in
  let flag_key := _generate_stopped_cache_key (_task_id self) in
  (exists w',
     set_stop_flag self w = (Ok tt, w') /\
     q w' = q w /\
     ((owner_is self identity w /\
       redis w' = <[flag_key := {| ttl := 600; value := RInt 1 |}]> (redis w))
      \/
      (~ owner_is self identity w /\ w' = w /\
       (~ stop_flag_set self w -> _is_stopped self w' = (Ok false, w')))) /\
     (forall key : string,
        key <> "generate_task_stopped:" +:+ _task_id self ->
        redis w' !! key = redis w !! key) /\
     (forall other : ApplicationQueueManager,
        _task_id other <> _task_id self ->
        (stop_flag_set other w' <-> stop_flag_set other w)) /\
     (forall task : string,
        redis w' !! ("generate_task_belong:" +:+ task) =
        redis w !! ("generate_task_belong:" +:+ task))) /\
  (forall user_id,
     prefixed_identity EXPLORE user_id = "account-" +:+ user_id /\
     prefixed_identity DEBUGGER user_id = "account-" +:+ user_id /\
     forall name, prefixed_identity (OTHER_SOURCE name) user_id = "end-user-" +:+ user_id) /\
  (owner_is self identity w <->
   exists t, redis w !! ("generate_task_belong:" +:+ _task_id self)
             = Some {| ttl := t; value := RStr identity |}) /\
  (stop_flag_set self w <->
   is_Some (redis w !! ("generate_task_stopped:" +:+ _task_id self))) /\
  (forall task : string,
     _generate_task_belong_cache_key task = "generate_task_belong:" +:+ task /\
     _generate_stopped_cache_key task = "generate_task_stopped:" +:+ task) /\
  (forall task other : string,
     (_generate_stopped_cache_key task = _generate_stopped_cache_key other ->
      task = other) /\
     (_generate_task_belong_cache_key task = _generate_task_belong_cache_key other ->
      task = other) /\
     _generate_stopped_cache_key task <> _generate_task_belong_cache_key other).
Proof.
  intros identity flag_key.
  assert (Hunchanged : forall w0 : world,
            w0 = w ->
            (forall key : string,
               key <> "generate_task_stopped:" +:+ _task_id self ->
               redis w0 !! key = redis w !! key) /\
            (forall other : ApplicationQueueManager,
               _task_id other <> _task_id self ->
               (stop_flag_set other w0 <-> stop_flag_set other w)) /\
            (forall task : string,
               redis w0 !! ("generate_task_belong:" +:+ task) =
               redis w !! ("generate_task_belong:" +:+ task))).
  { intros w0 ->. repeat split; auto. }
  split; [| split; [intros; repeat split |
            split; [reflexivity | split; [reflexivity |
            split; [intros; split; reflexivity |]]]]].
  - unfold set_stop_flag, redis_get, redis_setex. run_monad.
    fold identity. fold flag_key.
    assert (Hnone : ~ stop_flag_set self w -> _is_stopped self w = (Ok false, w)).
    { intros Hflag. rewrite _is_stopped_eq. unfold stop_flag_set in Hflag.
      destruct (redis w !! _generate_stopped_cache_key (_task_id self)); [| reflexivity].
      exfalso. apply Hflag. eauto. }
    destruct (redis w !! _generate_task_belong_cache_key (_task_id self))
      as [[t [s | z]] |] eqn:Hrec; simpl.
    + destruct (String.eqb s identity) eqn:Heq.
      * apply String.eqb_eq in Heq. subst s.
        eexists. split; [reflexivity |]. split; [reflexivity |].
        split; [left; split; [exists t; exact Hrec | reflexivity] |].
        unfold set_redis. cbn [redis]. split; [| split].
        -- intros key Hkey. apply lookup_insert_ne. intros Hsame. apply Hkey.
           symmetry. exact Hsame.
        -- intros other Hother. unfold stop_flag_set. cbn [redis].
           rewrite lookup_insert_ne; [reflexivity |].
           unfold flag_key. intros Hkey. apply Hother. symmetry.
           exact (append_inj_l _ _ _ Hkey).
        -- intros task. apply lookup_insert_ne.
           exact (cache_keys_apart (_task_id self) task).
      * apply String.eqb_neq in Heq.
        exists w. split; [reflexivity |]. split; [reflexivity |].
        split; [right; split; [| split; [reflexivity | exact Hnone]] |
                exact (Hunchanged w eq_refl)].
        intros [t' Hown]. rewrite Hrec in Hown. congruence.
    + exists w. split; [reflexivity |]. split; [reflexivity |].
      split; [right; split; [| split; [reflexivity | exact Hnone]] |
              exact (Hunchanged w eq_refl)].
      intros [t' Hown]. rewrite Hrec in Hown. discriminate.
    + exists w. split; [reflexivity |]. split; [reflexivity |].
      split; [right; split; [| split; [reflexivity | exact Hnone]] |
              exact (Hunchanged w eq_refl)].
      intros [t' Hown]. rewrite Hrec in Hown. discriminate.
  - intros task other. split; [| split].
    + apply append_inj_l.
    + apply append_inj_l.
    + apply cache_keys_apart.
Qed.

(** The keys on the sample task, written out: the owner's request puts the
    flag under [generate_task_stopped:task-1] and nowhere else; the record
    it was checked against is the one under [generate_task_belong:task-1]. *)
Lemma stop_flag_keys_on_sample :
  let w' := snd (set_stop_flag sample_manager owned_world) in
  redis owned_world !! "generate_task_belong:task-1" =
    Some {| ttl := 1800; value := RStr "account-42" |} /\
  redis owned_world !! "generate_task_stopped:task-1" = None /\
  redis w' !! "generate_task_stopped:task-1" = Some {| ttl := 600; value := RInt 1 |} /\
  redis w' !! "generate_task_stopped:task-2" = None /\
  redis w' !! "generate_task_belong:task-1" =
    redis owned_world !! "generate_task_belong:task-1".
Proof. vm_compute. repeat split. Qed.

(** The owner's request writes the flag and the Listener then sees it; the
    request of another identity changes nothing and the Listener sees none. *)
Lemma stop_requests_on_sample :
  snd (set_stop_flag sample_manager owned_world) =
    set_redis (fun r => <[_generate_stopped_cache_key "task-1" :=
                            {| ttl := 600; value := RInt 1 |}]> r) owned_world /\
  fst (_is_stopped sample_manager (snd (set_stop_flag sample_manager owned_world)))
    = Ok true /\
  set_stop_flag other_requester owned_world = (Ok tt, owned_world) /\
  fst (_is_stopped sample_manager (snd (set_stop_flag other_requester owned_world)))
    = Ok false.
Proof. repeat split. Qed.

(** [__init__] records the identity it is given as the owner of the task,
    with TTL 1800, over whatever record was there; [set_stop_flag] on the
    manager just built therefore always finds its own identity. *)
Lemma init_records_owner (task_id user_id : string) (invoke_from : InvokeFrom)
    (conversation_id app_mode message_id : string)
    (store : gmap string redis_entry) :
  user_id <> "" ->
  exists self w,
    __init__ task_id user_id invoke_from conversation_id app_mode message_id store
      = (Ok self, w) /\
    q w = [] /\
    redis w !! _generate_task_belong_cache_key task_id =
      Some {| ttl := 1800; value := RStr (prefixed_identity invoke_from user_id) |} /\
    owner_is self (prefixed_identity (_invoke_from self) (_user_id self)) w.
Proof.
  intros Huser. unfold __init__.
  destruct (String.eqb user_id "") eqn:Heq.
  - apply String.eqb_eq in Heq. contradiction.
  - unfold redis_setex. run_monad. eexists. eexists.
    split; [reflexivity |]. split; [reflexivity |].
    unfold owner_is. simpl. rewrite lookup_insert_eq. eauto.
Qed.

(** C5 (what the code does where the claim fails): the scan calls [dict()]
    on every value it reaches, so [publish] of an event that carries any
    field ends with AttributeError before the envelope is built, and nothing
    is enqueued, whether the payload holds a persistent record or not; only
    Ping and Stop, which carry no field, are enqueued. *)
Theorem C5_scan_rejects_every_payload
    (self : ApplicationQueueManager) (e : AppQueueEvent) (w : world) :
  match e with
  | QueuePingEvent | QueueStopEvent =>
      q (snd (publish self e w)) = q w ++ [Some (envelope self e)]
  | _ => publish self e w = (Raise (AttributeError "dict"), w)
  end.
Proof. rewrite publish_eq. destruct e; reflexivity. Qed.

(** A replacement text, which holds no persistent record, is not enqueued;
    a payload that does hold one is refused by the same AttributeError, not
    by the TypeError of the scan. *)
Lemma publish_plain_and_record_payloads :
  publish sample_manager (QueueMessageReplaceEvent "corrected text") (sample_world []) =
    (Raise (AttributeError "dict"), sample_world []) /\
  publish sample_manager
    (QueueRetrieverResourcesEvent [PyDict [("document", PyRecord "Document")]])
    (sample_world []) =
    (Raise (AttributeError "dict"), sample_world []) /\
  _check_for_sqlalchemy_models
    (PyEntity "Wrapper" (PyDict [("inner", PyEntity "Inner" (PyRecord "Document"))])) =
    Raise (TypeError sqlalchemy_message) /\
  _check_for_sqlalchemy_models
    (PyEntity "Wrapper" (PyDict [("inner", PyEntity "Inner" (PyStr "text"))])) = Ok tt.
Proof. repeat split. Qed.

(** ** The response assembler *)

Section PipelineFacts.
Variable env : collaborators.
Variable self : GenerateTaskPipeline.

Lemma prompts_for_saving_cases (p : list PromptMessage) :
  (exists prompts, _prompt_messages_to_prompt_for_saving self p = Ok prompts) \/
  _prompt_messages_to_prompt_for_saving self p = Raise IndexError.
Proof.
  unfold _prompt_messages_to_prompt_for_saving.
  destruct (String.eqb _ "chat"); [eauto |].
  destruct p; eauto.
Qed.

Lemma _save_message_effect (llm_result : LLMResult) (h : heap) :
  (exists h',
     _save_message env self llm_result h = (Ok tt, h') /\
     commits h' = commits h ++ [_message h'] /\
     length (signals h') = S (length (signals h)) /\
     _task_state h' = _task_state h /\
     yielded h' = yielded h /\
     shared h' = shared h) \/
  _save_message env self llm_result h = (Raise IndexError, h).
Proof.
  unfold _save_message, read_clock. run_monad.
  destruct (prompts_for_saving_cases (prompt_messages (TaskState.llm_result (_task_state h))))
    as [[prompts ->] | ->].
  - left. eexists. split; [reflexivity |]. simpl.
    repeat split. rewrite length_app. simpl. lia.
  - right. reflexivity.
Qed.

Lemma count_message_end_snoc (l : list yielded_item) (item : yielded_item) :
  count_message_end (l ++ [item]) =
    (count_message_end l + if is_message_end_frame item then 1 else 0)%nat.
Proof.
  unfold count_message_end. rewrite filter_app, length_app. f_equal.
  destruct (is_message_end_frame item) eqn:Hm.
  - rewrite filter_cons_True by exact Hm. reflexivity.
  - rewrite filter_cons_False by (rewrite Hm; discriminate). reflexivity.
Qed.

Lemma terminal_frame_is_message_end (h : heap) :
  is_message_end_frame
    (YieldGenerator
       (_yield_response
          (match TaskState.metadata (_task_state h) with
           | [] =>
               with_conversation_id self
                 [("event", PyStr "message_end");
                  ("task_id", PyStr (ApplicationGenerateEntity.task_id
                                       (_application_generate_entity self)));
                  ("id", PyStr (Message.id (_message h)))]
           | _ :: _ =>
               dict_set "metadata" (PyDict (TaskState.metadata (_task_state h)))
                 (with_conversation_id self
                    [("event", PyStr "message_end");
                     ("task_id", PyStr (ApplicationGenerateEntity.task_id
                                          (_application_generate_entity self)));
                     ("id", PyStr (Message.id (_message h)))])
           end))) = true.
Proof.
  unfold with_conversation_id.
  destruct (TaskState.metadata (_task_state h)), (is_chat_conversation self); reflexivity.
Qed.

Lemma stream_body_counts (e : AppQueueEvent) (h h' : heap) :
  stream_body env self e h = (Ok tt, h') ->
  length (commits h') = (length (commits h) + terminal_count e)%nat /\
  count_message_end (yielded h') =
    (count_message_end (yielded h) + terminal_count e)%nat.
Proof.
  destruct e as [| | error | chunk | text | llm_result | resources | thought];
    unfold stream_body, terminal_count, is_terminal.
  - intros [= <-]. simpl. rewrite count_message_end_snoc. simpl. lia.
  - unfold mbind at 1, M_bind at 1. unfold modify_state at 1.
    unfold mbind at 1, M_bind at 1. unfold get_state at 1.
    unfold mbind at 1, M_bind at 1.
    match goal with |- context [_save_message env self ?r ?h0] =>
      destruct (_save_message_effect r h0) as [(h1 & -> & Hc & _ & Hts & Hy & _) | ->]
    end; [| discriminate].
    unfold mbind at 1, M_bind at 1. unfold get_state at 1. unfold yield_, modify_state.
    intros [= <-]. simpl.
    rewrite Hc, Hy, length_app, count_message_end_snoc, terminal_frame_is_message_end.
    simpl. split; reflexivity.
  - discriminate.
  - destruct (delta_message_content chunk) as [delta_text |].
    + run_monad.
      destruct (prompt_messages (TaskState.llm_result (_task_state h))); simpl;
        (destruct (message_content (TaskState.llm_result (_task_state h))); simpl;
         [| discriminate]);
        unfold yield_, modify_state; intros [= <-]; simpl;
        rewrite count_message_end_snoc;
        unfold _handle_chunk, with_conversation_id;
        destruct (is_chat_conversation self); simpl; lia.
    + intros [= <-]. lia.
  - run_monad. unfold yield_, modify_state. intros [= <-]. simpl.
    rewrite count_message_end_snoc.
    unfold with_conversation_id; destruct (is_chat_conversation self); simpl; lia.
  - unfold mbind at 1, M_bind at 1. unfold modify_state at 1.
    unfold mbind at 1, M_bind at 1. unfold get_state at 1.
    unfold mbind at 1, M_bind at 1.
    match goal with |- context [_save_message env self ?r ?h0] =>
      destruct (_save_message_effect r h0) as [(h1 & -> & Hc & _ & Hts & Hy & _) | ->]
    end; [| discriminate].
    unfold mbind at 1, M_bind at 1. unfold get_state at 1. unfold yield_, modify_state.
    intros [= <-]. simpl.
    rewrite Hc, Hy, length_app, count_message_end_snoc, terminal_frame_is_message_end.
    simpl. split; reflexivity.
  - run_monad. intros [= <-]. simpl. lia.
  - destruct (first_agent_thought env thought).
    + run_monad. unfold yield_, modify_state. intros [= <-]. simpl.
      rewrite count_message_end_snoc.
      unfold with_conversation_id; destruct (is_chat_conversation self); simpl; lia.
    + intros [= <-]. lia.
Qed.

Lemma stream_events_counts (events : list AppQueueEvent) :
  forall h : heap,
    fst (stream_events env self events h) = Ok tt ->
    length (commits (snd (stream_events env self events h))) =
      (length (commits h) + count_terminal events)%nat /\
    count_message_end (yielded (snd (stream_events env self events h))) =
      (count_message_end (yielded h) + count_terminal events)%nat.
Proof.
  induction events as [| e rest IH]; intros h.
  - simpl. unfold count_terminal. simpl. lia.
  - simpl. unfold mbind, M_bind.
    destruct (stream_body env self e h) as [[[] | exn] h1] eqn:Hbody; [| discriminate].
    intros Hrest.
    destruct (stream_body_counts e h h1 Hbody) as [Hc Hy].
    destruct (IH h1 Hrest) as [Hc' Hy'].
    rewrite Hc', Hy', Hc, Hy.
    unfold count_terminal, terminal_count.
    destruct (is_terminal e) eqn:Ht.
    + rewrite filter_cons_True by exact Ht. simpl. lia.
    + rewrite filter_cons_False by (rewrite Ht; discriminate). lia.
Qed.

(** A chunk without delta text is skipped; a chunk with one adopts its
    prompt messages if none are stored yet, appends the delta to the
    assembled text and yields one message frame with the delta. *)
Lemma stream_body_chunk (chunk : LLMResultChunk) (h : heap) :
  match delta_message_content chunk with
  | None => stream_body env self (QueueMessageEvent chunk) h = (Ok tt, h)
  | Some delta_text =>
      forall c, assembled_text h = Some c ->
      exists h',
        stream_body env self (QueueMessageEvent chunk) h = (Ok tt, h') /\
        assembled_text h' = Some (c +:+ delta_text) /\
        stored_prompt_messages h' =
          match stored_prompt_messages h with
          | [] => chunk_prompt_messages chunk
          | p :: ps => p :: ps
          end /\
        yielded h' =
          yielded h ++
            [YieldGenerator (_yield_response (_handle_chunk self (_message h) delta_text))] /\
        _message h' = _message h /\
        commits h' = commits h /\
        TaskState.metadata (_task_state h') = TaskState.metadata (_task_state h)
  end.
Proof.
  unfold stream_body.
  destruct (delta_message_content chunk) as [delta_text |]; [| reflexivity].
  intros c Hc. unfold assembled_text, stored_prompt_messages in *.
  run_monad.
  destruct (prompt_messages (TaskState.llm_result (_task_state h))) eqn:Hp;
    simpl; rewrite Hc; simpl; unfold yield_, modify_state;
    eexists; (split; [reflexivity |]); simpl; rewrite ?Hp; repeat split.
Qed.

(** The loop body of the streaming assembler neither reads nor writes the
    world it shares with the producer. *)
Lemma _save_message_shared (r : LLMResult) (w : world) (h : heap) :
  _save_message env self r (set_shared w h) =
    (fst (_save_message env self r h), set_shared w (snd (_save_message env self r h))).
Proof.
  unfold _save_message, read_clock. run_monad.
  destruct (_prompt_messages_to_prompt_for_saving self _); reflexivity.
Qed.

Lemma stream_body_shared (e : AppQueueEvent) (w : world) (h : heap) :
  stream_body env self e (set_shared w h) =
    (fst (stream_body env self e h), set_shared w (snd (stream_body env self e h))).
Proof.
  destruct e as [| | error | chunk | text | llm_result | resources | thought];
    unfold stream_body, _save_message, read_clock, yield_; run_monad;
    try reflexivity.
  - destruct (_prompt_messages_to_prompt_for_saving self _); reflexivity.
  - destruct (delta_message_content chunk); [| reflexivity]. simpl.
    destruct (prompt_messages (TaskState.llm_result (_task_state h))); simpl;
      destruct (message_content (TaskState.llm_result (_task_state h))); reflexivity.
  - destruct (_prompt_messages_to_prompt_for_saving self _); reflexivity.
  - destruct (first_agent_thought env thought); reflexivity.
Qed.

Lemma stream_events_shared (events : list AppQueueEvent) :
  forall (w : world) (h : heap),
    stream_events env self events (set_shared w h) =
      (fst (stream_events env self events h),
       set_shared w (snd (stream_events env self events h))).
Proof.
  induction events as [| e rest IH]; intros w h; [reflexivity |].
  cbn [stream_events]. unfold mbind, M_bind.
  rewrite stream_body_shared.
  destruct (stream_body env self e h) as [[[] | exn] h1]; cbn [fst snd].
  - apply IH.
  - reflexivity.
Qed.

Lemma set_shared_same (h : heap) : set_shared (shared h) h = h.
Proof. destruct h; reflexivity. Qed.

Lemma stream_events_keeps_shared (events : list AppQueueEvent) (h : heap) :
  shared (snd (stream_events env self events h)) = shared h.
Proof.
  pose proof (stream_events_shared events (shared h) h) as Hsh.
  rewrite set_shared_same in Hsh. rewrite Hsh. reflexivity.
Qed.

Lemma stream_body_keeps_shared (e : AppQueueEvent) (h : heap) :
  shared (snd (stream_body env self e h)) = shared h.
Proof.
  pose proof (stream_body_shared e (shared h) h) as Hsh.
  rewrite set_shared_same in Hsh. rewrite Hsh. reflexivity.
Qed.

Lemma stream_for_events (fuel : nat) :
  forall (g : generator) (h h' : heap),
    stream_for env self fuel g h = (Ok (Some tt), h') ->
    stream_events env self (handed_over (_queue_manager self) fuel g (shared h)) h =
      (Ok tt, set_shared (shared h) h').
Proof.
  induction fuel as [| fuel IH]; intros g h h'; [discriminate |].
  cbn [stream_for handed_over]. unfold mbind at 1, M_bind at 1. unfold on_shared.
  destruct (listen_next (_queue_manager self) g (shared h))
    as [[[[[m | ] g'] |] | e] w1] eqn:Hnext; try discriminate.
  - unfold mbind, M_bind. rewrite stream_body_shared.
    cbn [stream_events]. unfold mbind, M_bind.
    pose proof (stream_body_keeps_shared (event m) h) as Hkeep.
    destruct (stream_body env self (event m) h) as [[[] | exn] h1] eqn:Hbody;
      cbn [fst snd] in *; [| discriminate].
    intros Hrest. apply IH in Hrest. cbn [shared set_shared] in Hrest.
    rewrite stream_events_shared in Hrest.
    pose proof (stream_events_keeps_shared
                  (handed_over (_queue_manager self) fuel g' w1) h1) as Hkeep'.
    destruct (stream_events env self (handed_over (_queue_manager self) fuel g' w1) h1)
      as [r h2] eqn:Hev. cbn [fst snd] in *.
    injection Hrest as -> Hsnd.
    f_equal. rewrite <- (set_shared_same h2), Hkeep', Hkeep.
    destruct h2, h'; cbn in *. unfold set_shared; cbn. congruence.
  - intros [= <-]. destruct h; reflexivity.
Qed.

End PipelineFacts.

Section HandledEvents.

Variable env : collaborators.
Variable self : GenerateTaskPipeline.

Lemma stream_body_raise_keeps (e : AppQueueEvent) (h h1 : heap) (exn : pyexn) :
  stream_body env self e h = (Raise exn, h1) ->
  commits h1 = commits h /\ yielded h1 = yielded h.
Proof.
  destruct e as [| | error | chunk | text | llm_result | resources | thought];
    unfold stream_body.
  - discriminate.
  - unfold mbind, M_bind, modify_state at 1, get_state at 1.
    match goal with |- context [_save_message env self ?r ?h0] =>
      destruct (_save_message_effect env self r h0) as [(h2 & -> & _) | ->]
    end; [discriminate |].
    intros [= _ <-]. split; reflexivity.
  - intros [= _ <-]. split; reflexivity.
  - destruct (delta_message_content chunk) as [delta_text |]; [| discriminate].
    run_monad.
    destruct (prompt_messages (TaskState.llm_result (_task_state h))); simpl;
      destruct (message_content (TaskState.llm_result (_task_state h))); simpl;
      try discriminate; intros [= _ <-]; split; reflexivity.
  - discriminate.
  - unfold mbind, M_bind, modify_state at 1, get_state at 1.
    match goal with |- context [_save_message env self ?r ?h0] =>
      destruct (_save_message_effect env self r h0) as [(h2 & -> & _) | ->]
    end; [discriminate |].
    intros [= _ <-]. split; reflexivity.
  - discriminate.
  - destruct (first_agent_thought env thought); discriminate.
Qed.

Lemma completed_shared (events : list AppQueueEvent) :
  forall (w : world) (h : heap),
    completed env self events (set_shared w h) = completed env self events h.
Proof.
  induction events as [| e rest IH]; intros w h; [reflexivity |].
  cbn [completed]. rewrite stream_body_shared.
  destruct (stream_body env self e h) as [[[] | exn] h1]; cbn [fst snd]; [| reflexivity].
  f_equal. apply IH.
Qed.

Lemma completed_all (events : list AppQueueEvent) :
  forall h : heap,
    fst (stream_events env self events h) = Ok tt ->
    completed env self events h = events.
Proof.
  induction events as [| e rest IH]; intros h; [reflexivity |].
  cbn [stream_events completed]. unfold mbind, M_bind.
  destruct (stream_body env self e h) as [[[] | exn] h1]; [| discriminate].
  intros Hrest. f_equal. apply IH, Hrest.
Qed.

Lemma count_terminal_cons (e : AppQueueEvent) (rest : list AppQueueEvent) :
  count_terminal (e :: rest) = (terminal_count e + count_terminal rest)%nat.
Proof.
  unfold count_terminal, terminal_count.
  destruct (is_terminal e) eqn:Ht.
  - rewrite filter_cons_True by exact Ht. reflexivity.
  - rewrite filter_cons_False by (rewrite Ht; discriminate). reflexivity.
Qed.

Lemma stream_for_step (fuel : nat) (g : generator) (h : heap) :
  stream_for env self (S fuel) g h =
    match listen_next (_queue_manager self) g (shared h) with
    | (Ok (Some (Yield message, g')), w1) =>
        match stream_body env self (event message) (set_shared w1 h) with
        | (Ok _, h1) => stream_for env self fuel g' h1
        | (Raise e, h1) => (Raise e, h1)
        end
    | (Ok (Some (StopIteration, _)), w1) => (Ok (Some tt), set_shared w1 h)
    | (Ok None, w1) => (Ok None, set_shared w1 h)
    | (Raise e, w1) => (Raise e, set_shared w1 h)
    end.
Proof.
  cbn [stream_for]. unfold mbind, M_bind, on_shared.
  destruct (listen_next (_queue_manager self) g (shared h))
    as [[[[[m | ] g'] |] | e] w1]; reflexivity.
Qed.

(** Whatever way the loop ends, the commits and the message_end items grow by
    the number of Stop and MessageEnd events among those handled. *)
Lemma stream_for_counts (fuel : nat) :
  forall (g : generator) (h : heap),
    let r := stream_for env self fuel g h in
    let done :=
      completed env self (handed_over (_queue_manager self) fuel g (shared h)) h in
    length (commits (snd r)) = (length (commits h) + count_terminal done)%nat /\
    count_message_end (yielded (snd r)) =
      (count_message_end (yielded h) + count_terminal done)%nat.
Proof.
  induction fuel as [| fuel IH]; intros g h; cbv zeta.
  - cbn. unfold count_terminal. simpl. lia.
  - rewrite stream_for_step. cbn [handed_over].
    destruct (listen_next (_queue_manager self) g (shared h))
      as [[[[[m | ] g'] |] | e] w1] eqn:Hnext;
      try (cbn [completed snd commits yielded set_shared]; unfold count_terminal;
           simpl; split; lia).
    rewrite stream_body_shared. cbn [completed].
    destruct (stream_body env self (event m) h) as [[[] | exn] h1] eqn:Hbody;
      cbn [fst snd].
    + destruct (stream_body_counts env self (event m) h h1 Hbody) as [Hc Hy].
      specialize (IH g' (set_shared w1 h1)). cbv zeta in IH.
      cbn [shared set_shared] in IH. rewrite completed_shared in IH.
      destruct IH as [IHc IHy]. cbn [commits yielded set_shared] in IHc, IHy.
      rewrite count_terminal_cons. split; [rewrite IHc, Hc | rewrite IHy, Hy]; lia.
    + destruct (stream_body_raise_keeps (event m) h h1 exn Hbody) as [Hc Hy].
      cbn [commits yielded set_shared]. rewrite Hc, Hy.
      unfold count_terminal. simpl. split; lia.
Qed.

(** The loop leaves an event it was handed unhandled only by raising. *)
Lemma stream_for_unhandled (fuel : nat) :
  forall (g : generator) (h : heap),
    completed env self (handed_over (_queue_manager self) fuel g (shared h)) h =
      handed_over (_queue_manager self) fuel g (shared h) \/
    exists exn, fst (stream_for env self fuel g h) = Raise exn.
Proof.
  induction fuel as [| fuel IH]; intros g h; [left; reflexivity |].
  rewrite stream_for_step. cbn [handed_over].
  destruct (listen_next (_queue_manager self) g (shared h))
    as [[[[[m | ] g'] |] | e] w1] eqn:Hnext; try (left; reflexivity).
  rewrite stream_body_shared. cbn [completed].
  destruct (stream_body env self (event m) h) as [[[] | exn] h1] eqn:Hbody;
    cbn [fst snd].
  - specialize (IH g' (set_shared w1 h1)).
    cbn [shared set_shared] in IH. rewrite completed_shared in IH.
    destruct IH as [IH | IH]; [left; f_equal; exact IH | right; exact IH].
  - right. exists exn. reflexivity.
Qed.

End HandledEvents.

Lemma append_assoc (a b c : string) : (a +:+ b) +:+ c = a +:+ (b +:+ c).
Proof.
  induction a as [| x a IH]; [reflexivity |].
  change (String x ((a +:+ b) +:+ c) = String x (a +:+ (b +:+ c))).
  now rewrite IH.
Qed.

Lemma append_empty_r (a : string) : a +:+ "" = a.
Proof.
  induction a as [| x a IH]; [reflexivity |].
  change (String x (a +:+ "") = String x a). now rewrite IH.
Qed.

Section AssemblerClaims.

Variable env : collaborators.
Variable self : GenerateTaskPipeline.

Lemma stream_chunks_text (chunks : list (list PromptMessage * string)) :
  forall (h : heap) (c : string),
    assembled_text h = Some c ->
    fst (stream_events env self (map chunk_event chunks) h) = Ok tt /\
    assembled_text (snd (stream_events env self (map chunk_event chunks) h)) =
      Some (c +:+ concat_text (map snd chunks)).
Proof.
  induction chunks as [| [prompts delta] rest IH]; intros h c Hc.
  - simpl. split; [reflexivity |].
    rewrite Hc. f_equal. symmetry. apply append_empty_r.
  - cbn [map stream_events]. unfold mbind, M_bind.
    pose proof (stream_body_chunk env self
                  {| chunk_prompt_messages := prompts;
                     delta_message_content := Some delta |} h) as Hstep.
    cbn [delta_message_content] in Hstep.
    destruct (Hstep c Hc) as (h1 & Hrun & Htext & _).
    change (chunk_event (prompts, delta))
      with (QueueMessageEvent {| chunk_prompt_messages := prompts;
                                 delta_message_content := Some delta |}).
    rewrite Hrun. cbv beta iota.
    destruct (IH h1 _ Htext) as [Hok Hfinal].
    split; [exact Hok |].
    rewrite Hfinal. cbn [map snd concat_text fold_right].
    fold (concat_text (map snd rest)). now rewrite append_assoc.
Qed.

(** C6 (amended): the streaming assembler accumulates the delta texts of the
    MessageChunk events it drains, in order, by concatenation onto TaskState's
    assembled text, so that "Hel", "lo", " world" leave "Hello world" with no
    later event; the blocking assembler skips a MessageChunk event and leaves
    the heap, TaskState included, as it was, and the answer of the response
    it returns is the text the MessageEnd event carries. *)
Theorem C6_streaming_accumulates_blocking_skips
    (chunks : list (list PromptMessage * string)) (h : heap) (c : string)
    (chunk : LLMResultChunk) (llm_result : LLMResult) :
  (let r := stream_events env self (map chunk_event chunks)
              (with_assembled_text (Some c) h) in
   fst r = Ok tt /\
   assembled_text (snd r) = Some (c +:+ concat_text (map snd chunks))) /\
  (let r := stream_events env self
              (map chunk_event [([], "Hel"); ([], "lo"); ([], " world")])
              (with_assembled_text (Some "") h) in
   fst r = Ok tt /\ assembled_text (snd r) = Some "Hello world") /\
  blocking_body env self (QueueMessageEvent chunk) h = (Ok None, h) /\
  (let r := blocking_body env self (QueueMessageEndEvent llm_result) h in
   (exists response,
      fst r = Ok (Some (PyDict response)) /\
      dict_get "answer" response = Some (option_str (message_content llm_result)))
   \/ fst r = Raise (KeyError "data") \/ fst r = Raise IndexError).
Proof.
  split; [| split; [| split]].
  - apply stream_chunks_text. reflexivity.
  - apply (stream_chunks_text [([], "Hel"); ([], "lo"); ([], " world")]
             (with_assembled_text (Some "") h) ""). reflexivity.
  - reflexivity.
  - cbv zeta.
    destruct (_save_message_effect env self llm_result h)
      as [(h1 & Hsave & _) | Hsave];
      unfold blocking_body, mbind, M_bind; rewrite Hsave;
      [| right; right; reflexivity].
    run_monad.
    destruct (TaskState.metadata (_task_state h1)) as [| item rest];
      unfold with_conversation_id; destruct (is_chat_conversation self); simpl.
    + left. eexists. split; reflexivity.
    + left. eexists. split; reflexivity.
    + right. left. reflexivity.
    + right. left. reflexivity.
Qed.

Lemma stream_chunks_prompt_messages (chunks : list LLMResultChunk) :
  forall (h : heap) (c : string),
    assembled_text h = Some c ->
    fst (stream_events env self (map QueueMessageEvent chunks) h) = Ok tt /\
    stored_prompt_messages (snd (stream_events env self (map QueueMessageEvent chunks) h)) =
      match stored_prompt_messages h with
      | [] => first_prompt_messages chunks
      | p :: ps => p :: ps
      end.
Proof.
  induction chunks as [| chunk rest IH]; intros h c Hc.
  - simpl. split; [reflexivity |]. destruct (stored_prompt_messages h); reflexivity.
  - cbn [map stream_events first_prompt_messages]. unfold mbind, M_bind.
    pose proof (stream_body_chunk env self chunk h) as Hstep.
    destruct (delta_message_content chunk) as [delta |].
    + destruct (Hstep c Hc) as (h1 & Hrun & Htext & Hprompts & _).
      rewrite Hrun. cbv beta iota. destruct (IH h1 _ Htext) as [Hok Hfinal].
      split; [exact Hok |]. rewrite Hfinal, Hprompts.
      destruct (stored_prompt_messages h); [| reflexivity].
      destruct (chunk_prompt_messages chunk); reflexivity.
    + rewrite Hstep. cbv beta iota. apply (IH h c Hc).
Qed.

(** C10 (amended): over the MessageChunk events the streaming assembler
    drains, a chunk without delta text is skipped whole (its prompt messages
    are not looked at); TaskState's prompt messages are set from the first
    chunk that has a delta text and carries prompt messages while the stored
    list is still empty, and a list once set is never replaced by the prompt
    messages of a later chunk. *)
Theorem C10_prompt_messages_set_once
    (chunks : list LLMResultChunk) (h : heap) (c : string) (skipped : LLMResultChunk) :
  (let r := stream_events env self (map QueueMessageEvent chunks)
              (with_assembled_text (Some c) h) in
   fst r = Ok tt /\
   stored_prompt_messages (snd r) =
     match stored_prompt_messages h with
     | [] => first_prompt_messages chunks
     | p :: ps => p :: ps
     end) /\
  stream_body env self
    (QueueMessageEvent {| chunk_prompt_messages := chunk_prompt_messages skipped;
                          delta_message_content := None |}) h = (Ok tt, h).
Proof.
  split; [| reflexivity].
  apply (stream_chunks_prompt_messages chunks (with_assembled_text (Some c) h) c).
  reflexivity.
Qed.

(** C8 (what the code does where the claim fails): for a MessageReplace event
    the streaming assembler yields exactly one item, and that item is not
    the message_replace frame but the generator object the call
    [self._yield_response(response)] returns, [_yield_response] being a
    generator function: a generator of one block, the block of the
    message_replace response whose answer is the replacement text. No str is
    yielded for the event, whereas for a Ping the frame itself is. The rest
    is as claimed: TaskState (the assembled text with it), the message
    record and the commits are as before. *)
Theorem C8_message_replace_is_display_only (text : string) (h : heap) :
  exists response,
    stream_body env self (QueueMessageReplaceEvent text) h =
      (Ok tt, add_yielded (YieldGenerator [DataBlock (PyDict response)]) h) /\
    dict_get "event" response = Some (PyStr "message_replace") /\
    dict_get "answer" response = Some (PyStr text) /\
    (let h' := snd (stream_body env self (QueueMessageReplaceEvent text) h) in
     yielded h' = yielded h ++ [YieldGenerator [DataBlock (PyDict response)]] /\
     _task_state h' = _task_state h /\
     assembled_text h' = assembled_text h /\
     _message h' = _message h /\
     commits h' = commits h /\
     shared h' = shared h) /\
    YieldGenerator [DataBlock (PyDict response)] = YieldGenerator (_yield_response response) /\
    (forall frame : string,
       yielded (snd (stream_body env self (QueueMessageReplaceEvent text) h)) <>
         yielded h ++ [YieldStr frame]) /\
    stream_body env self QueuePingEvent h =
      (Ok tt, add_yielded (YieldStr keepalive_string) h).
Proof.
  unfold stream_body. run_monad. unfold yield_, modify_state, _yield_response.
  eexists. split; [reflexivity |].
  unfold with_conversation_id. destruct (is_chat_conversation self);
    (split; [reflexivity |]; split; [reflexivity |];
     split; [repeat split |]; split; [reflexivity |]; split; [| reflexivity];
     intros frame Hframe; apply app_inv_head in Hframe; discriminate).
Qed.

(** C1 (amended): in every run of the streaming assembler, however it ends,
    [_save_message] has run once, and one message_end item has been yielded,
    for every Stop or MessageEnd event the loop has handled: no guard makes
    a second terminal event pass without finalization, and the loop does
    not end after a message_end item. The events handled are all those the
    Listener handed over when the run ends normally, and in any case unless
    the run ends by an exception. *)
Theorem C1_finalization_per_terminal_event (h : heap) :
  let r := _process_stream_response env self h in
  let events :=
    handed_over (_queue_manager self) assembler_fuel GenCreated (shared h) in
  let done := completed env self events h in
  length (commits (snd r)) = (length (commits h) + count_terminal done)%nat /\
  count_message_end (yielded (snd r)) =
    (count_message_end (yielded h) + count_terminal done)%nat /\
  (fst r = Ok (Some tt) -> done = events) /\
  (done = events \/ exists exn, fst r = Raise exn).
Proof.
  cbv zeta.
  destruct (stream_for_counts env self assembler_fuel GenCreated h) as [Hc Hy].
  split; [exact Hc |]. split; [exact Hy |].
  split; [| exact (stream_for_unhandled env self assembler_fuel GenCreated h)].
  intros Hrun. apply completed_all.
  unfold _process_stream_response in Hrun.
  destruct (stream_for env self assembler_fuel GenCreated h) as [r hf] eqn:Hfor.
  cbn [fst] in Hrun. subst r.
  apply stream_for_events in Hfor. rewrite Hfor. reflexivity.
Qed.

Lemma metadata_after_resources (resources : list pyobj) (h : heap) :
  exists h1,
    blocking_body env self (QueueRetrieverResourcesEvent resources) h = (Ok None, h1) /\
    TaskState.metadata (_task_state h1) <> [].
Proof.
  unfold blocking_body. run_monad. eexists. split; [reflexivity |]. simpl.
  destruct (TaskState.metadata (_task_state h)) as [| [k v] rest]; simpl;
    [| destruct (String.eqb k "retriever_resources")]; discriminate.
Qed.

(** C7 (what the code does where the claim fails): once a RetrieverResources
    event has been drained, the MessageEnd event never gives a response in
    blocking mode: the message is saved, and the assignment
    [response['data']['metadata']] raises KeyError since the response has no
    key 'data' (or [_save_message] itself raised IndexError). *)
Theorem C7_blocking_message_end_raises
    (resources : list pyobj) (llm_result : LLMResult) (h : heap) :
  let h1 := snd (blocking_body env self (QueueRetrieverResourcesEvent resources) h) in
  fst (blocking_body env self (QueueMessageEndEvent llm_result) h1) = Raise (KeyError "data")
  \/ fst (blocking_body env self (QueueMessageEndEvent llm_result) h1) = Raise IndexError.
Proof.
  destruct (metadata_after_resources resources h) as (h1 & Hrun & Hmeta).
  rewrite Hrun. cbn [snd].
  destruct (_save_message_effect env self llm_result h1)
    as [(h2 & Hsave & _ & _ & Hts & _) | Hsave]; [left | right];
    unfold blocking_body; unfold mbind at 1, M_bind at 1; rewrite Hsave;
    [| reflexivity].
  run_monad. rewrite Hts.
  destruct (TaskState.metadata (_task_state h1)) as [| item rest]; [contradiction |].
  unfold with_conversation_id. destruct (is_chat_conversation self); reflexivity.
Qed.

End AssemblerClaims.

(** ** The loops of the assemblers end *)

Lemma listen_loop_yields (self : ApplicationQueueManager) (fuel : nat) :
  forall (lt : Z) (w w' : world) (m : QueueMessage) (g' : generator),
    listen_loop self fuel lt w = (Ok (Some (Yield m, g')), w') ->
    exists lt', g' = GenSuspended lt' /\ lt' <= lt.
Proof.
  induction fuel as [| fuel IH]; intros lt w w' m g'; [discriminate |].
  cbn [listen_loop]. unfold mbind at 1, M_bind at 1. unfold q_get.
  destruct (q w) as [| [message |] rest].
  - unfold mbind, M_bind.
    destruct (listen_finally self lt w) as [[lt1 | e] w1] eqn:Hfin; [| discriminate].
    apply listen_finally_ok in Hfin as [-> Hpos].
    intros Hloop. apply IH in Hloop as (lt' & -> & Hle).
    exists lt'. split; [reflexivity | lia].
  - intros [= _ <- _]. exists lt. split; [reflexivity | lia].
  - unfold mbind, M_bind.
    destruct (listen_finally self lt _) as [[lt1 | e] w1]; discriminate.
Qed.

Lemma listen_next_yields (self : ApplicationQueueManager) (g g' : generator)
    (w w' : world) (m : QueueMessage) :
  listen_next self g w = (Ok (Some (Yield m, g')), w') ->
  1 <= generator_budget g /\
  exists lt', g' = GenSuspended lt' /\ lt' <= generator_budget g.
Proof.
  destruct g as [| lt |]; unfold listen_next, generator_budget.
  - intros Hloop. split; [lia |]. exact (listen_loop_yields _ _ _ _ _ _ _ Hloop).
  - unfold mbind, M_bind.
    destruct (listen_finally self lt w) as [[lt1 | e] w1] eqn:Hfin; [| discriminate].
    apply listen_finally_ok in Hfin as [-> Hpos].
    intros Hloop. split; [lia |]. exact (listen_loop_yields _ _ _ _ _ _ _ Hloop).
  - discriminate.
Qed.

Section AssemblersEnd.

Variable env : collaborators.
Variable self : GenerateTaskPipeline.




End AssemblersEnd.

(** ** The runs the claims are tried on *)

Lemma C1_finalization_per_terminal_event_witness :
  let h := sample_heap [queued (delta_event "Hello");
                        queued (QueueMessageEndEvent sample_result); None] in
  let r := _process_stream_response sample_env sample_pipeline h in
  let events :=
    handed_over (_queue_manager sample_pipeline) assembler_fuel GenCreated (shared h) in
  fst r = Ok (Some tt) /\
  completed sample_env sample_pipeline events h = events /\
  length (commits (snd r)) =
    (length (commits h) +
     count_terminal (completed sample_env sample_pipeline events h))%nat.
Proof.
  intros h r events.
  assert (Hrun : fst r = Ok (Some tt)) by (vm_compute; reflexivity).
  destruct (C1_finalization_per_terminal_event sample_env sample_pipeline h)
    as (Hc & _ & Hall & _).
  split; [exact Hrun |]. split; [exact (Hall Hrun) | exact Hc].
Defined.

(** C1 fails as stated: the Listener hands over a MessageEnd and then a Stop
    before the sentinel; the run ends normally with [_save_message] run
    twice and two message_end items yielded. *)
Lemma C1_counterexample :
  let r := _process_stream_response sample_env sample_pipeline
             (sample_heap [queued (QueueMessageEndEvent sample_result);
                           queued QueueStopEvent; None]) in
  fst r = Ok (Some tt) /\
  length (commits (snd r)) = 2%nat /\
  length (signals (snd r)) = 2%nat /\
  count_message_end (yielded (snd r)) = 2%nat /\
  ~ (length (commits (snd r)) <= 1)%nat.
Proof. vm_compute. repeat split. lia. Qed.

(** With a sentinel in the queue right after the MessageEnd, the Stop behind
    it is not drained and the run finalizes once. *)
Lemma message_end_then_sentinel_run :
  let r := _process_stream_response sample_env sample_pipeline
             (sample_heap [queued (QueueMessageEndEvent sample_result); None;
                           queued QueueStopEvent; None]) in
  fst r = Ok (Some tt) /\
  length (commits (snd r)) = 1%nat /\
  count_message_end (yielded (snd r)) = 1%nat /\
  q (shared (snd r)) = [queued QueueStopEvent; None].
Proof. vm_compute. repeat split. Qed.

(** A run that ends by an exception finalizes per terminal event as well:
    two [publish] calls of a Stop leave two Stop envelopes and no sentinel;
    the assembler saves and yields a message_end item for each, and the run
    ends when the Listener, its queue empty and no flag set, times out and
    [publish] raises. *)
Lemma two_stops_run :
  let queue := q (snd (publish sample_manager QueueStopEvent
                         (snd (publish sample_manager QueueStopEvent (sample_world []))))) in
  let r := _process_stream_response sample_env sample_pipeline (sample_heap queue) in
  queue = [queued QueueStopEvent; queued QueueStopEvent] /\
  fst r = Raise ConversationTaskStoppedException /\
  length (commits (snd r)) = 2%nat /\
  count_message_end (yielded (snd r)) = 2%nat.
Proof. vm_compute. repeat split. Qed.

(** The item yielded for a MessageReplace on the sample task is a generator
    object of one block; the item yielded for a Ping is the frame. *)
Lemma message_replace_then_ping_run :
  let r := _process_stream_response sample_env sample_pipeline
             (sample_heap [queued (QueueMessageReplaceEvent "corrected text");
                           queued QueuePingEvent; None]) in
  fst r = Ok (Some tt) /\
  yielded (snd r) =
    [YieldGenerator
       [DataBlock (PyDict [("event", PyStr "message_replace");
                           ("task_id", PyStr "task-1");
                           ("message_id", PyStr "msg-1");
                           ("answer", PyStr "corrected text");
                           ("created_at", PyInt 1700000000);
                           ("conversation_id", PyStr "conv-1")])];
     YieldStr keepalive_string].
Proof. vm_compute. repeat split. Qed.

(** C6 fails as stated: in blocking mode the three deltas are drained and
    dropped; the assembled text is still empty when the sentinel ends the
    loop, and the function returns None. *)
Lemma C6_counterexample :
  let r := _process_blocking_response sample_env sample_pipeline
             (sample_heap [queued (delta_event "Hel"); queued (delta_event "lo");
                           queued (delta_event " world"); None]) in
  fst r = Ok (Some ReturnsNone) /\
  assembled_text (snd r) = Some "" /\
  assembled_text (snd r) <> Some "Hello world".
Proof. vm_compute. repeat split. discriminate. Qed.

(** The same three deltas through the streaming assembler, Listener
    included. *)
Lemma streaming_hello_world_run :
  let r := _process_stream_response sample_env sample_pipeline
             (sample_heap [queued (delta_event "Hel"); queued (delta_event "lo");
                           queued (delta_event " world"); None]) in
  fst r = Ok (Some tt) /\
  assembled_text (snd r) = Some "Hello world" /\
  length (yielded (snd r)) = 3%nat.
Proof. vm_compute. repeat split. Qed.

(** In blocking mode the answer is the text the MessageEnd event carries. *)
Lemma blocking_answer_run :
  let r := _process_blocking_response sample_env sample_pipeline
             (sample_heap [queued (delta_event "Hel");
                           queued (QueueMessageEndEvent sample_result); None]) in
  fst r = Ok (Some (Response (PyDict
            [("event", PyStr "message"); ("task_id", PyStr "task-1");
             ("id", PyStr "msg-1"); ("mode", PyStr "chat");
             ("answer", PyStr "Hello world"); ("metadata", PyDict []);
             ("created_at", PyInt 1700000000);
             ("conversation_id", PyStr "conv-1")]))) /\
  length (commits (snd r)) = 1%nat.
Proof. vm_compute. repeat split. Qed.

(** The run of C7: resources, then MessageEnd, in blocking mode. The message
    is saved, then KeyError leaves [process] without a response. *)
Lemma blocking_resources_run :
  let r := _process_blocking_response sample_env sample_pipeline
             (sample_heap [queued (QueueRetrieverResourcesEvent
                                     [PyDict [("document_name", PyStr "manual")]]);
                           queued (QueueMessageEndEvent sample_result); None]) in
  fst r = Raise (KeyError "data") /\
  length (commits (snd r)) = 1%nat /\
  TaskState.metadata (_task_state (snd r)) =
    [("retriever_resources", PyList [PyDict [("document_name", PyStr "manual")]])].
Proof. vm_compute. repeat split. Qed.

(** The streaming sibling does merge the resources into the message_end
    frame. *)
Lemma streaming_resources_run :
  let r := _process_stream_response sample_env sample_pipeline
             (sample_heap [queued (QueueRetrieverResourcesEvent
                                     [PyDict [("document_name", PyStr "manual")]]);
                           queued (QueueMessageEndEvent sample_result); None]) in
  fst r = Ok (Some tt) /\
  yielded (snd r) =
    [YieldGenerator [DataBlock (PyDict
       [("event", PyStr "message_end"); ("task_id", PyStr "task-1");
        ("id", PyStr "msg-1"); ("conversation_id", PyStr "conv-1");
        ("metadata", PyDict [("retriever_resources",
            PyList [PyDict [("document_name", PyStr "manual")]])])])]].
Proof. vm_compute. repeat split. Qed.

(** C10 fails as stated: the first chunk drained carries prompt messages but
    no delta text and is skipped; the stored prompt messages come from the
    second chunk. *)
Lemma C10_counterexample :
  let chunks :=
    [ {| chunk_prompt_messages := [user_prompt "first"];
         delta_message_content := None |};
      {| chunk_prompt_messages := [user_prompt "second"];
         delta_message_content := Some "x" |} ] in
  let r := _process_stream_response sample_env sample_pipeline
             (sample_heap (map (fun c => queued (QueueMessageEvent c)) chunks ++ [None])) in
  fst r = Ok (Some tt) /\
  stored_prompt_messages (snd r) = [user_prompt "second"] /\
  claimed_prompt_messages chunks = [user_prompt "first"] /\
  stored_prompt_messages (snd r) <> claimed_prompt_messages chunks.
Proof. vm_compute. repeat split. discriminate. Qed.

(** * Further properties of the code *)

(** ** The queue manager *)

(** X1: the constructor refuses an empty user id with ValueError and writes
    nothing; for any other user id it starts from an empty queue and records,
    under the task's ownership key and with TTL 1800, the prefixed identity
    of the user it is given, over whatever record was there and without
    touching any other key. *)
Theorem X1_init_records_owner (task_id user_id : string) (invoke_from : InvokeFrom)
    (conversation_id app_mode message_id : string)
    (store : gmap string redis_entry) :
  let r := __init__ task_id user_id invoke_from conversation_id app_mode message_id store in
  (user_id = "" /\
   fst r = Raise (RaisedError (ValueError "user is required")) /\
   snd r = {| q := []; redis := store |})
  \/
  (user_id <> "" /\
   (exists self, fst r = Ok self /\ _task_id self = task_id /\
                 _user_id self = user_id /\ _invoke_from self = invoke_from) /\
   q (snd r) = [] /\
   redis (snd r) =
     <[_generate_task_belong_cache_key task_id :=
         {| ttl := 1800; value := RStr (prefixed_identity invoke_from user_id) |}]> store /\
   forall key, key <> _generate_task_belong_cache_key task_id ->
               redis (snd r) !! key = store !! key).
Proof.
  intros r. unfold r, __init__.
  destruct (String.eqb user_id "") eqn:Heq.
  - apply String.eqb_eq in Heq. left. repeat split. exact Heq.
  - apply String.eqb_neq in Heq. right. unfold redis_setex. run_monad.
    split; [exact Heq |]. split; [eexists; repeat split |].
    split; [reflexivity |]. split; [reflexivity |].
    intros key Hkey. apply lookup_insert_ne. congruence.
Qed.

(** X2: the manager just built can always stop its task, whoever was recorded
    as its owner before: the constructor has overwritten the ownership record
    with the identity [set_stop_flag] then compares with. *)
Theorem X2_new_manager_can_always_stop (task_id user_id : string)
    (invoke_from : InvokeFrom) (conversation_id app_mode message_id : string)
    (store : gmap string redis_entry) (self : ApplicationQueueManager) (w : world) :
  __init__ task_id user_id invoke_from conversation_id app_mode message_id store
    = (Ok self, w) ->
  fst (set_stop_flag self w) = Ok tt /\
  redis (snd (set_stop_flag self w)) !! _generate_stopped_cache_key task_id =
    Some {| ttl := 600; value := RInt 1 |} /\
  fst (_is_stopped self (snd (set_stop_flag self w))) = Ok true.
Proof.
  unfold __init__. destruct (String.eqb user_id ""); [discriminate |].
  unfold redis_setex. run_monad. intros [= <- <-].
  unfold set_stop_flag, _is_stopped, redis_get, redis_setex, redis_delete. run_monad.
  rewrite lookup_insert_eq. simpl. rewrite String.eqb_refl. simpl.
  rewrite lookup_insert_eq. simpl. repeat split.
Qed.

Lemma X2_new_manager_can_always_stop_witness :
  let w := {| q := [];
              redis := <[_generate_task_belong_cache_key "task-1" :=
                           {| ttl := 1800; value := RStr "end-user-7" |}]>
                         (redis owned_world) |} in
  __init__ "task-1" "7" (OTHER_SOURCE "web-app") "conv-1" "chat" "msg-1"
    (redis owned_world) = (Ok other_requester, w) /\
  (fst (set_stop_flag other_requester w) = Ok tt /\
   redis (snd (set_stop_flag other_requester w)) !! _generate_stopped_cache_key "task-1" =
     Some {| ttl := 600; value := RInt 1 |} /\
   fst (_is_stopped other_requester (snd (set_stop_flag other_requester w))) = Ok true).
Proof.
  intros w. split.
  - reflexivity.
  - apply (X2_new_manager_can_always_stop "task-1" "7" (OTHER_SOURCE "web-app")
             "conv-1" "chat" "msg-1" (redis owned_world) other_requester w).
    reflexivity.
Defined.

(** X3: [_is_stopped] answers true exactly when the stop flag is in the
    store, and clears it as it does: asked again right away it answers false.
    It touches neither the queue nor any other key. *)
Theorem X3_is_stopped_clears_flag (self : ApplicationQueueManager) (w : world) :
  let first := _is_stopped self w in
  let second := _is_stopped self (snd first) in
  (fst first = Ok true <-> stop_flag_set self w) /\
  (fst first = Ok false <-> ~ stop_flag_set self w) /\
  fst second = Ok false /\
  snd second = snd first /\
  q (snd first) = q w /\
  redis (snd first) = delete (_generate_stopped_cache_key (_task_id self)) (redis w).
Proof.
  cbv zeta. rewrite (_is_stopped_eq self w). unfold stop_flag_set.
  destruct (redis w !! _generate_stopped_cache_key (_task_id self)) as [entry |] eqn:Hflag;
    cbn [fst snd].
  - rewrite _is_stopped_eq. cbn [redis set_redis]. rewrite lookup_delete_eq.
    cbn [fst snd q set_redis redis].
    split; [split; [eauto | reflexivity] |].
    split; [split; [discriminate | intros H; exfalso; apply H; eauto] |].
    repeat split.
  - rewrite _is_stopped_eq, Hflag. cbn [fst snd].
    split; [split; [discriminate | intros [? ?]; discriminate] |].
    split; [split; [intros _ [? ?]; discriminate | reflexivity] |].
    repeat split. symmetry. apply delete_id. exact Hflag.
Qed.

(** X4: a stop request by the recorded owner is seen by the Listener once:
    [_is_stopped] then answers true and leaves the store as it was before
    the request, flag aside; asking twice for the stop is the same as asking
    once. *)
Theorem X4_stop_request_round_trip (self : ApplicationQueueManager) (w : world) :
  owner_is self (prefixed_identity (_invoke_from self) (_user_id self)) w ->
  let requested := snd (set_stop_flag self w) in
  fst (_is_stopped self requested) = Ok true /\
  redis (snd (_is_stopped self requested)) =
    delete (_generate_stopped_cache_key (_task_id self)) (redis w) /\
  q (snd (_is_stopped self requested)) = q w /\
  snd (set_stop_flag self requested) = requested.
Proof.
  intros [t Hown]. cbv zeta.
  assert (Hset : forall w0,
    redis w0 !! _generate_task_belong_cache_key (_task_id self) =
      Some {| ttl := t; value := RStr (prefixed_identity (_invoke_from self) (_user_id self)) |} ->
    set_stop_flag self w0 =
      (Ok tt, set_redis (fun r => <[_generate_stopped_cache_key (_task_id self) :=
                                      {| ttl := 600; value := RInt 1 |}]> r) w0)).
  { intros w0 H0. unfold set_stop_flag, redis_get, redis_setex. run_monad.
    rewrite H0. simpl. rewrite String.eqb_refl. reflexivity. }
  rewrite (Hset w Hown). cbn [snd].
  assert (Hne : _generate_stopped_cache_key (_task_id self) <>
                _generate_task_belong_cache_key (_task_id self)).
  { unfold _generate_stopped_cache_key, _generate_task_belong_cache_key. discriminate. }
  rewrite _is_stopped_eq. cbn [redis set_redis]. rewrite lookup_insert_eq.
  cbn [fst snd redis set_redis q]. repeat split.
  - apply delete_insert_eq.
  - rewrite Hset.
    + cbn [snd]. unfold set_redis. cbn [q redis]. f_equal. apply insert_insert_eq.
    + cbn [redis set_redis]. rewrite lookup_insert_ne by exact Hne. exact Hown.
Qed.

Lemma X4_stop_request_round_trip_witness :
  owner_is sample_manager
    (prefixed_identity (_invoke_from sample_manager) (_user_id sample_manager)) owned_world /\
  (let requested := snd (set_stop_flag sample_manager owned_world) in
   fst (_is_stopped sample_manager requested) = Ok true /\
   redis (snd (_is_stopped sample_manager requested)) =
     delete (_generate_stopped_cache_key (_task_id sample_manager)) (redis owned_world) /\
   q (snd (_is_stopped sample_manager requested)) = q owned_world /\
   snd (set_stop_flag sample_manager requested) = requested).
Proof.
  split.
  - exists 1800. reflexivity.
  - apply (X4_stop_request_round_trip sample_manager owned_world).
    exists 1800. reflexivity.
Defined.

Lemma check_dict_cons (cls k : string) (v : pyobj) (rest : list (string * pyobj)) :
  _check_for_sqlalchemy_models (PyEntity cls (PyDict ((k, v) :: rest))) =
    match _check_for_sqlalchemy_models v with
    | Ok _ => _check_for_sqlalchemy_models (PyEntity cls (PyDict rest))
    | Raise e => Raise e
    end.
Proof. reflexivity. Qed.

Lemma check_list_cons (cls : string) (v : pyobj) (rest : list pyobj) :
  _check_for_sqlalchemy_models (PyEntity cls (PyList (v :: rest))) =
    match _check_for_sqlalchemy_models v with
    | Ok _ => _check_for_sqlalchemy_models (PyEntity cls (PyList rest))
    | Raise e => Raise e
    end.
Proof. reflexivity. Qed.

(** X5: the scan accepts an object exactly when it has a [dict()] method and
    every value of the mapping (or item of the sequence) that method returns
    is accepted in turn, each through its own [dict()] method; a value that
    has none, a plain string or number included, makes the scan raise. *)
Theorem X5_scan_accepts_only_nested_entities
    (cls : string) (items : list (string * pyobj)) (elements : list pyobj)
    (plain : string) (number : Z) :
  (_check_for_sqlalchemy_models (PyEntity cls (PyDict items)) = Ok tt <->
   Forall (fun kv => _check_for_sqlalchemy_models (snd kv) = Ok tt) items) /\
  (_check_for_sqlalchemy_models (PyEntity cls (PyList elements)) = Ok tt <->
   Forall (fun item => _check_for_sqlalchemy_models item = Ok tt) elements) /\
  _check_for_sqlalchemy_models (PyStr plain) = Raise (AttributeError "dict") /\
  _check_for_sqlalchemy_models (PyInt number) = Raise (AttributeError "dict") /\
  _check_for_sqlalchemy_models (PyDict items) = Raise (AttributeError "dict") /\
  _check_for_sqlalchemy_models (PyRecord cls) = Raise (AttributeError "dict").
Proof.
  split; [| split; [| repeat split]].
  - induction items as [| [k v] rest IH].
    + split; [constructor | reflexivity].
    + rewrite check_dict_cons. split.
      * destruct (_check_for_sqlalchemy_models v) as [[] | e] eqn:Hv; [| discriminate].
        intros Hrest. constructor; [exact Hv | apply IH, Hrest].
      * intros Hall. inversion Hall as [| ? ? Hv Hrest]; subst. cbn [snd] in Hv.
        rewrite Hv. apply IH, Hrest.
  - induction elements as [| v rest IH].
    + split; [constructor | reflexivity].
    + rewrite check_list_cons. split.
      * destruct (_check_for_sqlalchemy_models v) as [[] | e] eqn:Hv; [| discriminate].
        intros Hrest. constructor; [exact Hv | apply IH, Hrest].
      * intros Hall. inversion Hall as [| ? ? Hv Hrest]; subst.
        rewrite Hv. apply IH, Hrest.
Qed.

(** X6: whatever the object, the scan either accepts it or raises one of two
    exceptions: AttributeError for the missing [dict] method, or the
    TypeError that names SQLAlchemy models; and that TypeError is what an
    entity whose [dict()] gives a model instance or a model class gets. *)
Theorem X6_scan_exceptions (o : pyobj) (cls model : string) :
  (_check_for_sqlalchemy_models o = Ok tt \/
   _check_for_sqlalchemy_models o = Raise (AttributeError "dict") \/
   _check_for_sqlalchemy_models o = Raise (TypeError sqlalchemy_message)) /\
  _check_for_sqlalchemy_models (PyEntity cls (PyRecord model)) =
    Raise (TypeError sqlalchemy_message) /\
  _check_for_sqlalchemy_models (PyEntity cls (PyTable model)) =
    Raise (TypeError sqlalchemy_message).
Proof.
  split; [| split; reflexivity].
  revert o. fix IH 1.
  intros [| s | z | items | items | c data | c | c];
    try (right; left; reflexivity).
  destruct data as [| s | z | items | items | c' data' | c' | c'];
    try (left; reflexivity); try (right; right; reflexivity).
  - induction items as [| [k v] rest IHrest]; [left; reflexivity |].
    rewrite check_dict_cons.
    destruct (IH v) as [-> | [-> | ->]]; [exact IHrest | right; left | right; right];
      reflexivity.
  - induction items as [| v rest IHrest]; [left; reflexivity |].
    rewrite check_list_cons.
    destruct (IH v) as [-> | [-> | ->]]; [exact IHrest | right; left | right; right];
      reflexivity.
Qed.

(** X7: the helpers that publish an event with a payload never get past the
    scan: [publish_message_end] and [publish_error] raise AttributeError
    before [stop_listen], so they enqueue neither the event nor the
    sentinel, and the chunk, replace, resources and thought helpers leave
    the world untouched as well. *)
Theorem X7_payload_helpers_enqueue_nothing (self : ApplicationQueueManager)
    (w : world) (llm_result : LLMResult) (e : error_obj) (chunk : LLMResultChunk)
    (text thought : string) (resources : list pyobj) :
  publish_message_end self llm_result w = (Raise (AttributeError "dict"), w) /\
  publish_error self e w = (Raise (AttributeError "dict"), w) /\
  publish_chunk_message self chunk w = (Raise (AttributeError "dict"), w) /\
  publish_message_replace self text w = (Raise (AttributeError "dict"), w) /\
  publish_retriever_resources self resources w = (Raise (AttributeError "dict"), w) /\
  publish_agent_thought self thought w = (Raise (AttributeError "dict"), w).
Proof.
  unfold publish_message_end, publish_error, publish_chunk_message,
    publish_message_replace, publish_retriever_resources, publish_agent_thought.
  unfold mbind, M_bind. rewrite !publish_eq. repeat split.
Qed.

(** ** The Listener *)

(** The finally clause when the countdown stays positive and no stop flag is
    there: it returns, and the most it does is put a Ping at the end of the
    queue. *)
Lemma listen_finally_quiet (self : ApplicationQueueManager) (lt : Z) (w : world) :
  1 < lt -> ~ stop_flag_set self w ->
  exists pings,
    (length pings <= 1)%nat /\
    listen_finally self lt w =
      (Ok (lt - 1),
       {| q := q w ++ map (fun _ : unit => Some (envelope self QueuePingEvent)) pings;
          redis := redis w |}).
Proof.
  intros Hlt Hflag. rewrite listen_finally_eq.
  destruct (lt - 1 <=? 0) eqn:Hle; [apply Z.leb_le in Hle; lia |].
  unfold stop_flag_set in Hflag.
  destruct (redis w !! _generate_stopped_cache_key (_task_id self)) eqn:Hlook;
    [exfalso; apply Hflag; eauto |].
  destruct ((0 <? lt - 1) && ((lt - 1) mod 10 =? 0)).
  - exists [tt]. split; [simpl; lia | reflexivity].
  - exists []. split; [simpl; lia |]. simpl. rewrite app_nil_r. destruct w; reflexivity.
Qed.

Lemma listen_drain_suspended (self : ApplicationQueueManager) (messages : list QueueMessage) :
  forall (lt : Z) (behind : list (option QueueMessage))
         (store : gmap string redis_entry) (fuel : nat),
    Z.of_nat (length messages) + 3 <= lt ->
    store !! _generate_stopped_cache_key (_task_id self) = None ->
    (length messages < fuel)%nat ->
    exists pings,
      listen_drain self fuel (GenSuspended lt)
        {| q := map Some messages ++ None :: behind; redis := store |} =
      (messages, Returned,
       {| q := behind ++ map (fun _ : unit => Some (envelope self QueuePingEvent)) pings;
          redis := store |}).
Proof.
  induction messages as [| m rest IH]; intros lt behind store fuel Hlt Hflag Hfuel.
  - destruct fuel as [| fuel]; [simpl in Hfuel; lia |].
    cbn [listen_drain listen_next map app length] in *.
    assert (Hq : ~ stop_flag_set self {| q := None :: behind; redis := store |}).
    { unfold stop_flag_set. cbn [redis]. rewrite Hflag. intros [? ?]; discriminate. }
    destruct (listen_finally_quiet self lt _ ltac:(lia) Hq) as (p1 & _ & Hf1). cbn [q redis] in Hf1.
    unfold mbind at 1, M_bind at 1. rewrite Hf1. cbn [q redis app].
    unfold listen_fuel. cbn [listen_loop]. unfold mbind at 1, M_bind at 1.
    unfold q_get at 1. cbn [q app redis]. unfold set_q. cbn [q redis].
    assert (Hq2 : ~ stop_flag_set self
              {| q := behind ++ map (fun _ : unit => Some (envelope self QueuePingEvent)) p1;
                 redis := store |}).
    { unfold stop_flag_set. cbn [redis]. rewrite Hflag. intros [? ?]; discriminate. }
    destruct (listen_finally_quiet self (lt - 1) _ ltac:(lia) Hq2) as (p2 & _ & Hf2). cbn [q redis] in Hf2.
    unfold mbind, M_bind. rewrite Hf2. cbn [q redis].
    exists (p1 ++ p2). rewrite map_app, app_assoc. reflexivity.
  - destruct fuel as [| fuel]; [simpl in Hfuel; lia |].
    cbn [listen_drain listen_next map app length] in *.
    assert (Hq : ~ stop_flag_set self
              {| q := Some m :: map Some rest ++ None :: behind; redis := store |}).
    { unfold stop_flag_set. cbn [redis]. rewrite Hflag. intros [? ?]; discriminate. }
    destruct (listen_finally_quiet self lt _ ltac:(lia) Hq) as (p1 & _ & Hf1). cbn [q redis] in Hf1.
    unfold mbind at 1, M_bind at 1. rewrite Hf1. cbn [q redis app].
    unfold listen_fuel. cbn [listen_loop]. unfold mbind at 1, M_bind at 1.
    unfold q_get at 1. cbn [q app redis]. unfold set_q. cbn [q redis].
    unfold mret, M_ret.
    rewrite <- app_assoc. cbn [app].
    destruct (IH (lt - 1)
                (behind ++ map (fun _ : unit => Some (envelope self QueuePingEvent)) p1)
                store fuel ltac:(lia) Hflag ltac:(lia)) as (p2 & Hrest).
    rewrite Hrest. exists (p1 ++ p2). rewrite map_app, app_assoc. reflexivity.
Qed.

Lemma listen_drain_step (qm : ApplicationQueueManager) (fuel : nat) (g : generator)
    (w : world) :
  listen_drain qm (S fuel) g w =
    match listen_next qm g w with
    | (Ok (Some (Yield message, g')), w') =>
        let '(messages, ending, w'') := listen_drain qm fuel g' w' in
        (message :: messages, ending, w'')
    | (Ok (Some (StopIteration, _)), w') => ([], Returned, w')
    | (Ok None, w') => ([], Unfinished, w')
    | (Raise e, w') => ([], Raised e, w')
    end.
Proof. reflexivity. Qed.

(** X8: with no stop flag set, the messages queued before the sentinel, up to
    598 of them, are handed over in the order they were queued; the generator
    then returns normally, and nothing queued behind the sentinel is handed
    over: it stays in the queue, followed by the keepalives published on the
    way. *)
Theorem X8_listen_fifo_up_to_sentinel (self : ApplicationQueueManager)
    (messages : list QueueMessage) (behind : list (option QueueMessage))
    (store : gmap string redis_entry) :
  (length messages <= 598)%nat ->
  store !! _generate_stopped_cache_key (_task_id self) = None ->
  exists pings,
    listen_drain self assembler_fuel GenCreated
      {| q := map Some messages ++ None :: behind; redis := store |} =
    (messages, Returned,
     {| q := behind ++ map (fun _ : unit => Some (envelope self QueuePingEvent)) pings;
        redis := store |}).
Proof.
  intros Hlen Hflag.
  destruct messages as [| m rest].
  - change assembler_fuel with (S 601). rewrite listen_drain_step.
    cbn [listen_next map app].
    unfold listen_fuel. cbn [listen_loop]. unfold mbind at 1, M_bind at 1.
    unfold q_get at 1. cbn [q redis]. unfold set_q. cbn [q redis].
    assert (Hq : ~ stop_flag_set self {| q := behind; redis := store |}).
    { unfold stop_flag_set. cbn [redis]. rewrite Hflag. intros [? ?]; discriminate. }
    destruct (listen_finally_quiet self 600 _ ltac:(lia) Hq) as (p1 & _ & Hf1). cbn [q redis] in Hf1.
    unfold mbind, M_bind. rewrite Hf1. cbn [q redis].
    exists p1. reflexivity.
  - change assembler_fuel with (S 601). rewrite listen_drain_step.
    cbn [listen_next map app].
    unfold listen_fuel. cbn [listen_loop]. unfold mbind at 1, M_bind at 1.
    unfold q_get at 1. cbn [q redis]. unfold set_q. cbn [q redis]. unfold mret, M_ret.
    cbn [length] in Hlen.
    destruct (listen_drain_suspended self rest 600 behind store 601
                ltac:(lia) Hflag ltac:(lia)) as (p & Hrest).
    rewrite Hrest. exists p. reflexivity.
Qed.

Lemma X8_listen_fifo_up_to_sentinel_witness :
  (length [envelope sample_manager (delta_event "Hel");
           envelope sample_manager (delta_event "lo")] <= 598)%nat /\
  (∅ : gmap string redis_entry) !! _generate_stopped_cache_key (_task_id sample_manager)
    = None /\
  exists pings,
    listen_drain sample_manager assembler_fuel GenCreated
      {| q := map Some [envelope sample_manager (delta_event "Hel");
                        envelope sample_manager (delta_event "lo")]
              ++ None :: [queued QueueStopEvent];
         redis := ∅ |} =
    ([envelope sample_manager (delta_event "Hel");
      envelope sample_manager (delta_event "lo")], Returned,
     {| q := [queued QueueStopEvent]
             ++ map (fun _ : unit => Some (envelope sample_manager QueuePingEvent)) pings;
        redis := ∅ |}).
Proof.
  split; [simpl; lia |]. split; [reflexivity |].
  apply (X8_listen_fifo_up_to_sentinel sample_manager
           [envelope sample_manager (delta_event "Hel");
            envelope sample_manager (delta_event "lo")]
           [queued QueueStopEvent] ∅).
  - simpl. lia.
  - reflexivity.
Defined.

Lemma handed_over_bound (qm : ApplicationQueueManager) (fuel : nat) :
  forall (g : generator) (w : world),
    (length (handed_over qm fuel g w) <= Z.to_nat (generator_budget g))%nat.
Proof.
  induction fuel as [| fuel IH]; intros g w; [simpl; lia |].
  cbn [handed_over].
  destruct (listen_next qm g w) as [[[[[m | ] g'] |] | e] w1] eqn:Hnext;
    try (simpl; lia).
  apply listen_next_yields in Hnext as (Hpos & lt' & -> & Hle).
  cbn [length]. specialize (IH (GenSuspended lt') w1). cbn [generator_budget] in IH. lia.
Qed.

(** X9: one generator of [listen] hands over at most 600 messages, however
    many are queued and however fast they come: every message taken costs a
    tick of the countdown. A generator suspended with countdown [lt] hands
    over fewer than [lt] more. *)
Theorem X9_listen_hands_over_at_most_600 (qm : ApplicationQueueManager)
    (fuel : nat) (w : world) (lt : Z) :
  (length (handed_over qm fuel GenCreated w) <= 600)%nat /\
  (length (handed_over qm fuel (GenSuspended lt) w) <= Z.to_nat (lt - 1))%nat.
Proof.
  split.
  - apply (handed_over_bound qm fuel GenCreated w).
  - apply (handed_over_bound qm fuel (GenSuspended lt) w).
Qed.

(** The finally clause puts envelopes at the end of the queue and nothing
    else: never a sentinel. *)
Lemma listen_finally_appends_envelopes (self : ApplicationQueueManager) (lt : Z)
    (w : world) :
  exists added : list QueueMessage,
    q (snd (listen_finally self lt w)) = q w ++ map Some added.
Proof.
  rewrite listen_finally_eq.
  destruct (lt - 1 <=? 0).
  - exists [envelope self QueueStopEvent]. reflexivity.
  - destruct (redis w !! _generate_stopped_cache_key (_task_id self)).
    + exists [envelope self QueueStopEvent]. reflexivity.
    + destruct ((0 <? lt - 1) && ((lt - 1) mod 10 =? 0)).
      * exists [envelope self QueuePingEvent]. reflexivity.
      * exists []. simpl. now rewrite app_nil_r.
Qed.

Lemma listen_loop_step (self : ApplicationQueueManager) (fuel : nat) (lt : Z)
    (w : world) :
  listen_loop self (S fuel) lt w =
    match q w with
    | [] =>
        match listen_finally self lt w with
        | (Ok lt', w1) => listen_loop self fuel lt' w1
        | (Raise e, w1) => (Raise e, w1)
        end
    | Some message :: rest =>
        (Ok (Some (Yield message, GenSuspended lt)), set_q (fun _ => rest) w)
    | None :: rest =>
        match listen_finally self lt (set_q (fun _ => rest) w) with
        | (Ok _, w1) => (Ok (Some (StopIteration, GenFinished)), w1)
        | (Raise e, w1) => (Raise e, w1)
        end
    end.
Proof.
  cbn [listen_loop]. unfold mbind, M_bind, q_get.
  destruct (q w) as [| [message |] rest]; reflexivity.
Qed.

Lemma listen_loop_needs_sentinel (self : ApplicationQueueManager) (fuel : nat) :
  forall (lt : Z) (w : world),
    ~ In None (q w) ->
    ~ In None (q (snd (listen_loop self fuel lt w))) /\
    forall g', fst (listen_loop self fuel lt w) <> Ok (Some (StopIteration, g')).
Proof.
  induction fuel as [| fuel IH]; intros lt w Hq.
  - split; [exact Hq | discriminate].
  - rewrite listen_loop_step.
    destruct (q w) as [| [message |] rest] eqn:Hqw.
    + destruct (listen_finally_appends_envelopes self lt w) as (added & Hadd).
      destruct (listen_finally self lt w) as [[lt1 | e] w1]; cbn [snd fst] in *.
      * apply IH. rewrite Hadd, Hqw. cbn [app]. intros Hin.
        apply in_map_iff in Hin as (? & ? & _). discriminate.
      * split; [| discriminate]. rewrite Hadd, Hqw. cbn [app]. intros Hin.
        apply in_map_iff in Hin as (? & ? & _). discriminate.
    + cbn [fst snd]. split; [| discriminate].
      unfold set_q. cbn [q]. intros Hin. apply Hq. right. exact Hin.
    + exfalso. apply Hq. left. reflexivity.
Qed.

Lemma listen_next_needs_sentinel (self : ApplicationQueueManager) (g : generator)
    (w : world) :
  g <> GenFinished ->
  ~ In None (q w) ->
  ~ In None (q (snd (listen_next self g w))) /\
  forall g', fst (listen_next self g w) <> Ok (Some (StopIteration, g')).
Proof.
  intros Hg Hq. destruct g as [| lt |]; [| | contradiction]; unfold listen_next.
  - apply listen_loop_needs_sentinel. exact Hq.
  - unfold mbind, M_bind.
    destruct (listen_finally_appends_envelopes self lt w) as (added & Hadd).
    destruct (listen_finally self lt w) as [[lt1 | e] w1]; cbn [snd fst] in *.
    + apply listen_loop_needs_sentinel. rewrite Hadd. intros Hin.
      apply in_app_or in Hin as [Hin | Hin]; [exact (Hq Hin) |].
      apply in_map_iff in Hin as (? & ? & _). discriminate.
    + split; [| discriminate]. rewrite Hadd. intros Hin.
      apply in_app_or in Hin as [Hin | Hin]; [exact (Hq Hin) |].
      apply in_map_iff in Hin as (? & ? & _). discriminate.
Qed.

(** X10: a generator of [listen] that has not finished returns normally only
    by taking a sentinel out of the queue: over a queue that holds none, it
    never returns; it ends by the exception of the finally clause (or is
    still going when the consumer stops taking messages). *)
Theorem X10_listen_returns_only_at_sentinel (self : ApplicationQueueManager)
    (fuel : nat) :
  forall (g : generator) (w : world),
    g <> GenFinished ->
    ~ In None (q w) ->
    snd (fst (listen_drain self fuel g w)) <> Returned.
Proof.
  induction fuel as [| fuel IH]; intros g w Hg Hq; [discriminate |].
  cbn [listen_drain].
  destruct (listen_next_needs_sentinel self g w Hg Hq) as [Hq' Hret].
  destruct (listen_next self g w) as [[[[[m | ] g'] |] | e] w1] eqn:Hnext;
    cbn [fst snd] in *; try discriminate.
  - assert (Hg' : g' <> GenFinished).
    { apply listen_next_yields in Hnext as (_ & lt' & -> & _). discriminate. }
    specialize (IH g' w1 Hg' Hq').
    destruct (listen_drain self fuel g' w1) as [[ms ending] w2]. exact IH.
  - exfalso. exact (Hret g' eq_refl).
Qed.

Lemma X10_listen_returns_only_at_sentinel_witness :
  GenCreated <> GenFinished /\
  ~ In None (q (sample_world [queued (delta_event "Hel")])) /\
  snd (fst (listen_drain sample_manager 5 GenCreated
              (sample_world [queued (delta_event "Hel")]))) <> Returned.
Proof.
  split; [discriminate |]. split.
  - simpl. intros [H | []]. discriminate.
  - apply (X10_listen_returns_only_at_sentinel sample_manager 5 GenCreated
             (sample_world [queued (delta_event "Hel")])).
    + discriminate.
    + simpl. intros [H | []]. discriminate.
Defined.

(** ** The prompt transcript *)




Section Transcript.

Variable self : GenerateTaskPipeline.




(** X13: for a chat model the transcript is always produced, one record per
    prompt message of role user, assistant or system, in the order of the
    messages and under those role names; messages of any other role are
    left out. *)
Theorem X13_chat_transcript (prompt_messages : list PromptMessage) :
  ModelConfig.mode (model_config self) = "chat" ->
  exists prompts,
    _prompt_messages_to_prompt_for_saving self prompt_messages = Ok prompts /\
    map saved_role prompts =
      map (fun p => Some (role_value (role p)))
          (filter (fun p => is_saved_role p = true) prompt_messages).
Proof.
  intros Hmode. unfold _prompt_messages_to_prompt_for_saving. rewrite Hmode.
  cbn [String.eqb]. rewrite !Ascii.eqb_refl. eexists. split; [reflexivity |].
  induction prompt_messages as [| p rest IH]; [reflexivity |].
  cbn [map concat]. rewrite map_app, IH.
  unfold prompt_for_saving at 1, is_saved_role at 2.
  destruct p as [[] c]; cbn [role content].
  - rewrite filter_cons_True by reflexivity.
    destruct c as [| s | parts]; [reflexivity | reflexivity |].
    destruct (text_and_files parts "" []); reflexivity.
  - rewrite filter_cons_True by reflexivity.
    destruct c as [| s | parts]; [reflexivity | reflexivity |].
    destruct (text_and_files parts "" []); reflexivity.
  - rewrite filter_cons_True by reflexivity.
    destruct c as [| s | parts]; [reflexivity | reflexivity |].
    destruct (text_and_files parts "" []); reflexivity.
  - rewrite filter_cons_False by discriminate. reflexivity.
Qed.

(** X14: for a model that is not a chat model the transcript is a single
    record made from the first prompt message alone, always under the role
    user whatever the role of that message, and without a files entry; with
    no prompt message at all the function raises IndexError. *)
Theorem X14_completion_transcript (first : PromptMessage)
    (rest other : list PromptMessage) :
  ModelConfig.mode (model_config self) <> "chat" ->
  _prompt_messages_to_prompt_for_saving self [] = Raise IndexError /\
  _prompt_messages_to_prompt_for_saving self (first :: rest) =
    Ok [PyDict [("role", PyStr "user");
                ("text", prompt_content_object (content first))]] /\
  _prompt_messages_to_prompt_for_saving self (first :: rest) =
    _prompt_messages_to_prompt_for_saving self (first :: other).
Proof.
  intros Hmode. apply String.eqb_neq in Hmode.
  unfold _prompt_messages_to_prompt_for_saving. rewrite Hmode. repeat split.
Qed.

End Transcript.


Lemma X13_chat_transcript_witness :
  ModelConfig.mode (model_config sample_pipeline) = "chat" /\
  exists prompts,
    _prompt_messages_to_prompt_for_saving sample_pipeline
      [user_prompt "hi"; {| role := TOOL; content := ContentStr "call" |}] = Ok prompts /\
    map saved_role prompts =
      map (fun p => Some (role_value (role p)))
          (filter (fun p => is_saved_role p = true)
             [user_prompt "hi"; {| role := TOOL; content := ContentStr "call" |}]).
Proof.
  split; [reflexivity |].
  apply (X13_chat_transcript sample_pipeline
           [user_prompt "hi"; {| role := TOOL; content := ContentStr "call" |}]).
  reflexivity.
Defined.

Lemma X14_completion_transcript_witness :
  ModelConfig.mode (model_config completion_pipeline) <> "chat" /\
  (_prompt_messages_to_prompt_for_saving completion_pipeline [] = Raise IndexError /\
   _prompt_messages_to_prompt_for_saving completion_pipeline
     ({| role := SYSTEM; content := ContentStr "be brief" |} :: [user_prompt "hi"]) =
     Ok [PyDict [("role", PyStr "user");
                 ("text", prompt_content_object
                            (content {| role := SYSTEM; content := ContentStr "be brief" |}))]] /\
   _prompt_messages_to_prompt_for_saving completion_pipeline
     ({| role := SYSTEM; content := ContentStr "be brief" |} :: [user_prompt "hi"]) =
   _prompt_messages_to_prompt_for_saving completion_pipeline
     ({| role := SYSTEM; content := ContentStr "be brief" |} :: [])).
Proof.
  split; [discriminate |].
  apply (X14_completion_transcript completion_pipeline
           {| role := SYSTEM; content := ContentStr "be brief" |} [user_prompt "hi"] []).
  discriminate.
Defined.

(** ** Finalization *)

Section Finalization.

Variable env : collaborators.
Variable self : GenerateTaskPipeline.

(** X15: [_save_message] either does all of its work or none of it. It fails,
    with IndexError and the heap untouched, exactly when the model is not a
    chat model and TaskState holds no prompt message. Otherwise it keeps the
    id and creation time of the message record, copies the token counts,
    unit prices and total price of the usage it is given, stores the cleaned
    text (the empty string for no text), measures the latency from the start
    of the pipeline, commits that record once and sends one notification
    whose first-message flag says whether the task came without a
    conversation id; TaskState, the items yielded and the shared world are
    left alone. *)
Theorem X15_save_message_all_or_nothing (llm_result : LLMResult) (h : heap) :
  let r := _save_message env self llm_result h in
  let m := _message (snd r) in
  (ModelConfig.mode (model_config self) <> "chat" /\ stored_prompt_messages h = [] /\
   r = (Raise IndexError, h))
  \/
  (~ (ModelConfig.mode (model_config self) <> "chat" /\ stored_prompt_messages h = []) /\
   fst r = Ok tt /\
   Message.id m = Message.id (_message h) /\
   Message.created_at m = Message.created_at (_message h) /\
   Message.message_tokens m = prompt_tokens (usage llm_result) /\
   Message.message_unit_price m = prompt_unit_price (usage llm_result) /\
   Message.message_price_unit m = prompt_price_unit (usage llm_result) /\
   Message.answer_tokens m = completion_tokens (usage llm_result) /\
   Message.answer_unit_price m = completion_unit_price (usage llm_result) /\
   Message.answer_price_unit m = completion_price_unit (usage llm_result) /\
   Message.total_price m = total_price (usage llm_result) /\
   Message.answer m = answer_for_saving env (message_content llm_result) /\
   Message.provider_response_latency m =
     perf_counter env (clock_reads h) - _start_at self /\
   _prompt_messages_to_prompt_for_saving self (stored_prompt_messages h) =
     Ok (Message.message m) /\
   commits (snd r) = commits h ++ [m] /\
   signals (snd r) =
     signals h ++
       [{| sender := m; signal_conversation := _conversation self;
           is_first_message :=
             match ApplicationGenerateEntity.conversation_id
                     (_application_generate_entity self) with
             | None => true
             | Some _ => false
             end;
           signal_extras :=
             ApplicationGenerateEntity.extras (_application_generate_entity self) |}] /\
   _task_state (snd r) = _task_state h /\
   yielded (snd r) = yielded h /\
   shared (snd r) = shared h).
Proof.
  cbv zeta. unfold _save_message, read_clock, stored_prompt_messages. run_monad.
  unfold _prompt_messages_to_prompt_for_saving.
  destruct (String.eqb (ModelConfig.mode (model_config self)) "chat") eqn:Hmode.
  - apply String.eqb_eq in Hmode. right. simpl.
    split; [intros [Hne _]; contradiction |]. repeat split.
  - apply String.eqb_neq in Hmode.
    destruct (prompt_messages (TaskState.llm_result (_task_state h))) as [| p ps] eqn:Hp.
    + left. repeat split. exact Hmode.
    + right. simpl. split; [intros [_ Hnil]; discriminate |]. repeat split.
Qed.

Lemma _save_message_fails_without_prompts (llm_result : LLMResult) (h : heap) :
  ModelConfig.mode (model_config self) <> "chat" ->
  stored_prompt_messages h = [] ->
  _save_message env self llm_result h = (Raise IndexError, h).
Proof.
  intros Hmode Hnone. apply String.eqb_neq in Hmode.
  unfold _save_message, read_clock, stored_prompt_messages in *. run_monad.
  unfold _prompt_messages_to_prompt_for_saving. rewrite Hmode, Hnone. reflexivity.
Qed.

Lemma blocking_body_keeps_prompt_messages (e : AppQueueEvent) (h : heap) :
  stored_prompt_messages (snd (blocking_body env self e h)) = stored_prompt_messages h.
Proof.
  destruct e as [| | error | chunk | text | llm_result | resources | thought];
    try reflexivity.
  unfold blocking_body, mbind, M_bind.
  destruct (_save_message_effect env self llm_result h)
    as [(h1 & Hsave & _ & _ & Hts & _) | Hsave]; rewrite Hsave; [| reflexivity].
  run_monad. unfold stored_prompt_messages.
  destruct (TaskState.metadata (_task_state h1)); simpl; [now rewrite Hts |].
  destruct (setitem2 _ _ _ _); simpl; now rewrite Hts.
Qed.

Lemma blocking_for_no_response_without_prompts (fuel : nat) :
  forall (g : generator) (h h' : heap) (response : pyobj),
    ModelConfig.mode (model_config self) <> "chat" ->
    stored_prompt_messages h = [] ->
    blocking_for env self fuel g h <> (Ok (Some (Response response)), h').
Proof.
  induction fuel as [| fuel IH]; intros g h h' response Hmode Hnone; [discriminate |].
  cbn [blocking_for]. unfold mbind at 1, M_bind at 1. unfold on_shared.
  destruct (listen_next (_queue_manager self) g (shared h))
    as [[[[[m | ] g'] |] | e] w1]; try discriminate.
  unfold mbind, M_bind.
  pose proof (blocking_body_keeps_prompt_messages (event m) (set_shared w1 h)) as Hkeep.
  destruct (blocking_body env self (event m) (set_shared w1 h))
    as [[[r |] | e] h1] eqn:Hbody; cbn [snd] in Hkeep; try discriminate.
  - exfalso. destruct (event m) as [| | error | chunk | text | llm_result | resources | thought];
      try discriminate.
    unfold blocking_body, mbind, M_bind in Hbody.
    rewrite (_save_message_fails_without_prompts llm_result (set_shared w1 h) Hmode Hnone)
      in Hbody.
    discriminate.
  - apply IH; [exact Hmode |]. rewrite Hkeep. exact Hnone.
Qed.

(** X16: in blocking mode a model that is not a chat model never gets a
    response: the blocking assembler never fills TaskState's prompt messages,
    so on MessageEnd [_save_message] raises IndexError before anything is
    written, and whatever the queue holds [process] ends without returning a
    response. *)
Theorem X16_blocking_completion_never_responds
    (age : ApplicationGenerateEntity.t) (m : Message.t) (w : world)
    (llm_result : LLMResult) (response : pyobj) (h' : heap) :
  ModelConfig.mode (model_config self) <> "chat" ->
  _process_blocking_response env self (initial_heap age m w)
    <> (Ok (Some (Response response)), h') /\
  blocking_body env self (QueueMessageEndEvent llm_result) (initial_heap age m w) =
    (Raise IndexError, initial_heap age m w).
Proof.
  intros Hmode. split.
  - apply blocking_for_no_response_without_prompts; [exact Hmode | reflexivity].
  - unfold blocking_body, mbind, M_bind.
    rewrite (_save_message_fails_without_prompts llm_result (initial_heap age m w) Hmode)
      by reflexivity.
    reflexivity.
Qed.

Lemma blocking_body_outcomes (e : AppQueueEvent) (h : heap) :
  match blocking_body env self e h with
  | (Ok None, h1) => commits h1 = commits h
  | (Ok (Some response), h1) =>
      length (commits h1) = S (length (commits h)) /\
      TaskState.metadata (_task_state h1) = [] /\
      exists items,
        response = PyDict items /\
        dict_get "event" items = Some (PyStr "message") /\
        dict_get "metadata" items = Some (PyDict []) /\
        (exists llm_result,
           e = QueueMessageEndEvent llm_result /\
           dict_get "answer" items = Some (option_str (message_content llm_result)))
  | (Raise _, _) => True
  end.
Proof.
  destruct e as [| | error | chunk | text | llm_result | resources | thought];
    try reflexivity.
  unfold blocking_body, mbind, M_bind.
  destruct (_save_message_effect env self llm_result h)
    as [(h1 & Hsave & Hc & _ & _) | Hsave]; rewrite Hsave; [| exact I].
  run_monad.
  destruct (TaskState.metadata (_task_state h1)) eqn:Hmeta; simpl.
  - rewrite Hc, length_app. simpl. split; [lia |]. split; [exact Hmeta |].
    eexists. split; [reflexivity |].
    unfold with_conversation_id. destruct (is_chat_conversation self); simpl;
      repeat split; eauto.
  - unfold setitem2, with_conversation_id.
    destruct (is_chat_conversation self); exact I.
Qed.

Lemma blocking_body_keeps_shared (e : AppQueueEvent) (h : heap) :
  shared (snd (blocking_body env self e h)) = shared h.
Proof.
  destruct e as [| | error | chunk | text | llm_result | resources | thought];
    try reflexivity.
  unfold blocking_body, mbind, M_bind.
  destruct (_save_message_effect env self llm_result h)
    as [(h1 & Hsave & _ & _ & _ & _ & Hsh) | Hsave]; rewrite Hsave; [| reflexivity].
  run_monad.
  destruct (TaskState.metadata (_task_state h1)); simpl; [exact Hsh |].
  destruct (setitem2 _ _ _ _); simpl; exact Hsh.
Qed.

Lemma blocking_body_goes_on (e : AppQueueEvent) (h h1 : heap) :
  blocking_body env self e h = (Ok None, h1) -> ends_blocking_loop e = false.
Proof.
  destruct e as [| | error | chunk | text | llm_result | resources | thought];
    try reflexivity.
  - discriminate.
  - unfold blocking_body, mbind, M_bind.
    destruct (_save_message env self llm_result h) as [[[] | exn] h2]; [| discriminate].
    run_monad.
    destruct (TaskState.metadata (_task_state h2)); simpl; [discriminate |].
    destruct (setitem2 _ _ _ _); simpl; discriminate.
Qed.

(** X17: a response the blocking assembler returns comes from the first
    MessageEnd event the Listener hands over, no Error event having come
    before it, right after the one [_save_message] of the run; its event is
    "message", its answer the text of that MessageEnd, and its metadata are
    always the empty mapping: TaskState held no metadata at that point, for
    with retriever resources stored the run ends in KeyError instead. *)
Theorem X17_blocking_response_has_no_metadata (fuel : nat) :
  forall (g : generator) (h h' : heap) (response : pyobj),
    blocking_for env self fuel g h = (Ok (Some (Response response)), h') ->
    length (commits h') = S (length (commits h)) /\
    TaskState.metadata (_task_state h') = [] /\
    exists items before behind llm_result,
      handed_over (_queue_manager self) fuel g (shared h) =
        before ++ QueueMessageEndEvent llm_result :: behind /\
      Forall (fun e => ends_blocking_loop e = false) before /\
      response = PyDict items /\
      dict_get "event" items = Some (PyStr "message") /\
      dict_get "metadata" items = Some (PyDict []) /\
      dict_get "answer" items = Some (option_str (message_content llm_result)).
Proof.
  induction fuel as [| fuel IH]; intros g h h' response; [discriminate |].
  cbn [blocking_for handed_over]. unfold mbind at 1, M_bind at 1. unfold on_shared.
  destruct (listen_next (_queue_manager self) g (shared h))
    as [[[[[m | ] g'] |] | e] w1]; try discriminate.
  unfold mbind, M_bind.
  pose proof (blocking_body_outcomes (event m) (set_shared w1 h)) as Hbody.
  pose proof (blocking_body_keeps_shared (event m) (set_shared w1 h)) as Hshared.
  pose proof (blocking_body_goes_on (event m) (set_shared w1 h)) as Hon.
  destruct (blocking_body env self (event m) (set_shared w1 h))
    as [[[r |] | e] h1]; try discriminate.
  - intros [= <- <-].
    destruct Hbody as (Hc & Hmeta & items & -> & Hevent & Hmd & llm_result & He & Hans).
    split; [exact Hc |]. split; [exact Hmeta |].
    exists items, [], (handed_over (_queue_manager self) fuel g' w1), llm_result.
    rewrite He. repeat split; try assumption. constructor.
  - intros Hrest. apply IH in Hrest. cbn [commits set_shared snd shared] in *.
    destruct Hrest as (Hc & Hmeta & items & before & behind & llm_result
                       & Hover & Hbefore & Hrest).
    rewrite <- Hbody. split; [exact Hc |]. split; [exact Hmeta |].
    exists items, (event m :: before), behind, llm_result.
    rewrite Hshared in Hover. rewrite Hover. split; [reflexivity |].
    split; [constructor; [exact (Hon h1 eq_refl) | exact Hbefore] | exact Hrest].
Qed.

End Finalization.

Lemma X16_blocking_completion_never_responds_witness :
  ModelConfig.mode (model_config completion_pipeline) <> "chat" /\
  (_process_blocking_response sample_env completion_pipeline
     (initial_heap completion_entity sample_message
        (sample_world [queued (QueueMessageEndEvent sample_result); None]))
     <> (Ok (Some (Response (PyDict []))),
         initial_heap completion_entity sample_message (sample_world [])) /\
   blocking_body sample_env completion_pipeline (QueueMessageEndEvent sample_result)
     (initial_heap completion_entity sample_message
        (sample_world [queued (QueueMessageEndEvent sample_result); None])) =
     (Raise IndexError,
      initial_heap completion_entity sample_message
        (sample_world [queued (QueueMessageEndEvent sample_result); None]))).
Proof.
  split; [discriminate |].
  apply (X16_blocking_completion_never_responds sample_env completion_pipeline
           completion_entity sample_message
           (sample_world [queued (QueueMessageEndEvent sample_result); None])
           sample_result (PyDict [])
           (initial_heap completion_entity sample_message (sample_world []))).
  discriminate.
Defined.

Lemma X17_blocking_response_has_no_metadata_witness :
  let h := sample_heap [queued (delta_event "Hello");
                        queued (QueueMessageEndEvent sample_result); None] in
  let r := blocking_for sample_env sample_pipeline assembler_fuel GenCreated h in
  (exists response, r = (Ok (Some (Response response)), snd r)) /\
  length (commits (snd r)) = S (length (commits h)) /\
  TaskState.metadata (_task_state (snd r)) = [] /\
  exists before behind llm_result,
    handed_over sample_manager assembler_fuel GenCreated (shared h) =
      before ++ QueueMessageEndEvent llm_result :: behind /\
    Forall (fun e => ends_blocking_loop e = false) before.
Proof.
  intros h r.
  assert (Hrun : exists response, r = (Ok (Some (Response response)), snd r)).
  { vm_compute. eexists. reflexivity. }
  split; [exact Hrun |].
  destruct Hrun as (response & Hrun).
  destruct (X17_blocking_response_has_no_metadata sample_env sample_pipeline
              assembler_fuel GenCreated h (snd r) response Hrun)
    as (Hc & Hmeta & items & before & behind & llm_result & Hover & Hbefore & _).
  split; [exact Hc |]. split; [exact Hmeta |].
  exists before, behind, llm_result. split; [exact Hover | exact Hbefore].
Defined.

(** ** The streaming assembler *)

Lemma dict_get_set_eq (key : string) (v : pyobj) (items : list (string * pyobj)) :
  dict_get key (dict_set key v items) = Some v.
Proof.
  induction items as [| [k x] rest IH]; cbn [dict_set dict_get].
  - now rewrite String.eqb_refl.
  - destruct (String.eqb k key) eqn:Hk; cbn [dict_get]; rewrite Hk; [reflexivity | exact IH].
Qed.

Lemma dict_get_set_ne (key other : string) (v : pyobj) (items : list (string * pyobj)) :
  other <> key ->
  dict_get other (dict_set key v items) = dict_get other items.
Proof.
  intros Hne. induction items as [| [k x] rest IH]; cbn [dict_set dict_get].
  - apply String.eqb_neq in Hne. rewrite String.eqb_sym, Hne. reflexivity.
  - destruct (String.eqb k key) eqn:Hk; cbn [dict_get].
    + apply String.eqb_eq in Hk. subst k.
      destruct (String.eqb key other) eqn:Hko; [| reflexivity].
      apply String.eqb_eq in Hko. congruence.
    + destruct (String.eqb k other); [reflexivity | exact IH].
Qed.

Lemma dict_set_set (key : string) (v v' : pyobj) (items : list (string * pyobj)) :
  dict_set key v' (dict_set key v items) = dict_set key v' items.
Proof.
  induction items as [| [k x] rest IH]; cbn [dict_set].
  - now rewrite String.eqb_refl.
  - destruct (String.eqb k key) eqn:Hk; cbn [dict_set]; rewrite Hk; [reflexivity |].
    now rewrite IH.
Qed.

Lemma stream_events_app (env : collaborators) (self : GenerateTaskPipeline)
    (first second : list AppQueueEvent) :
  forall h : heap,
    stream_events env self (first ++ second) h =
      match stream_events env self first h with
      | (Ok _, h1) => stream_events env self second h1
      | (Raise e, h1) => (Raise e, h1)
      end.
Proof.
  induction first as [| e rest IH]; intros h; [reflexivity |].
  cbn [app stream_events]. unfold mbind, M_bind.
  destruct (stream_body env self e h) as [[[] | exn] h1]; [apply IH | reflexivity].
Qed.

Section Streaming.

Variable env : collaborators.
Variable self : GenerateTaskPipeline.

Lemma with_conversation_id_get (response : list (string * pyobj)) :
  dict_get "conversation_id" response = None ->
  dict_get "conversation_id" (with_conversation_id self response) =
    if is_chat_conversation self
    then Some (PyStr (Conversation.id (_conversation self)))
    else None.
Proof.
  intros Hnone. unfold with_conversation_id.
  destruct (is_chat_conversation self); [apply dict_get_set_eq | exact Hnone].
Qed.

Lemma stream_body_yields_as_expected (e : AppQueueEvent) (h : heap) :
  exists items,
    yielded (snd (stream_body env self e h)) = yielded h ++ items /\
    (length items <= 1)%nat /\
    Forall (yielded_item_as_expected self) items /\
    (e = QueuePingEvent -> items = [YieldStr keepalive_string]) /\
    (e <> QueuePingEvent -> Forall (fun item => forall s, item <> YieldStr s) items).
Proof.
  destruct e as [| | error | chunk | text | llm_result | resources | thought];
    unfold stream_body.
  - eexists. split; [reflexivity |]. split; [simpl; lia |].
    split; [repeat constructor |]. split; [reflexivity | congruence].
  - unfold mbind, M_bind, modify_state at 1, get_state at 1.
    match goal with |- context [_save_message env self ?r ?h0] =>
      destruct (_save_message_effect env self r h0) as [(h1 & -> & _ & _ & _ & Hy & _) | ->]
    end.
    + unfold get_state, yield_, modify_state. cbn [snd yielded add_yielded].
      rewrite Hy. cbn [yielded set_task_state].
      eexists. split; [reflexivity |]. split; [simpl; lia |].
      split; [| split; [discriminate | intros _; repeat constructor; discriminate]].
      constructor; [| constructor]. unfold _yield_response, yielded_item_as_expected.
      destruct (TaskState.metadata (_task_state h1));
        [| rewrite dict_get_set_ne by discriminate];
        apply with_conversation_id_get; reflexivity.
    + exists []. cbn [snd yielded set_task_state]. rewrite app_nil_r.
      split; [reflexivity |]. split; [simpl; lia |].
      split; [constructor | split; [discriminate | constructor]].
  - exists []. cbn. rewrite app_nil_r. split; [reflexivity |]. split; [lia |].
    split; [constructor | split; [discriminate | constructor]].
  - destruct (delta_message_content chunk) as [delta_text |].
    + run_monad.
      destruct (prompt_messages (TaskState.llm_result (_task_state h))); simpl;
        destruct (message_content (TaskState.llm_result (_task_state h))); simpl;
        try (exists []; rewrite app_nil_r; split; [reflexivity |];
             split; [simpl; lia |];
             split; [constructor | split; [discriminate | constructor]]);
        (eexists; split; [reflexivity |]; split; [simpl; lia |];
         split; [| split; [discriminate | intros _; repeat constructor; discriminate]];
         constructor; [| constructor];
         unfold _yield_response, yielded_item_as_expected, _handle_chunk;
         apply with_conversation_id_get; reflexivity).
    + exists []. cbn. rewrite app_nil_r. split; [reflexivity |]. split; [lia |].
      split; [constructor | split; [discriminate | constructor]].
  - run_monad. eexists. split; [reflexivity |]. split; [simpl; lia |].
    split; [| split; [discriminate | intros _; repeat constructor; discriminate]].
    constructor; [| constructor]. unfold _yield_response, yielded_item_as_expected.
    apply with_conversation_id_get; reflexivity.
  - unfold mbind, M_bind, modify_state at 1, get_state at 1.
    match goal with |- context [_save_message env self ?r ?h0] =>
      destruct (_save_message_effect env self r h0) as [(h1 & -> & _ & _ & _ & Hy & _) | ->]
    end.
    + unfold get_state, yield_, modify_state. cbn [snd yielded add_yielded].
      rewrite Hy. cbn [yielded set_task_state].
      eexists. split; [reflexivity |]. split; [simpl; lia |].
      split; [| split; [discriminate | intros _; repeat constructor; discriminate]].
      constructor; [| constructor]. unfold _yield_response, yielded_item_as_expected.
      destruct (TaskState.metadata (_task_state h1));
        [| rewrite dict_get_set_ne by discriminate];
        apply with_conversation_id_get; reflexivity.
    + exists []. cbn [snd yielded set_task_state]. rewrite app_nil_r.
      split; [reflexivity |]. split; [simpl; lia |].
      split; [constructor | split; [discriminate | constructor]].
  - exists []. cbn. rewrite app_nil_r. split; [reflexivity |]. split; [lia |].
    split; [constructor | split; [discriminate | constructor]].
  - destruct (first_agent_thought env thought).
    + run_monad. eexists. split; [reflexivity |]. split; [simpl; lia |].
      split; [| split; [discriminate | intros _; repeat constructor; discriminate]].
      constructor; [| constructor]. unfold _yield_response, yielded_item_as_expected.
      apply with_conversation_id_get; reflexivity.
    + exists []. cbn. rewrite app_nil_r. split; [reflexivity |]. split; [lia |].
      split; [constructor | split; [discriminate | constructor]].
Qed.

(** X18: the streaming assembler yields at most one item per event and only
    ever adds to what it has yielded. Every item it yields is either the
    keepalive frame, the str [event: ping] followed by two line feeds, or
    the generator object [_yield_response] returns, a generator of a single
    block whose response carries [conversation_id], with the id of the
    conversation, exactly when the conversation mode is "chat". The
    keepalive is what a Ping event yields, and only a Ping yields a str:
    without a Ping among the events every item is a generator object. *)
Theorem X18_frames_carry_conversation_id (events : list AppQueueEvent) :
  forall h : heap,
    (exists items,
       yielded (snd (stream_events env self events h)) = yielded h ++ items /\
       (length items <= length events)%nat /\
       Forall (yielded_item_as_expected self) items /\
       (Forall (fun e => e <> QueuePingEvent) events ->
        Forall (fun item => exists response,
                  item = YieldGenerator (_yield_response response)) items)) /\
    stream_body env self QueuePingEvent h =
      (Ok tt, add_yielded (YieldStr keepalive_string) h) /\
    keepalive_string = "event: ping" +:+ newline +:+ newline.
Proof.
  intros h. split; [| split; reflexivity]. revert h.
  induction events as [| e rest IH]; intros h.
  - exists []. cbn. rewrite app_nil_r. split; [reflexivity |]. split; [lia |].
    split; constructor.
  - cbn [stream_events]. unfold mbind, M_bind.
    destruct (stream_body_yields_as_expected e h) as (one & Hone & Hlen & Hok & _ & Hgen).
    assert (Hone_gen : e <> QueuePingEvent ->
              Forall (fun item => exists response,
                        item = YieldGenerator (_yield_response response)) one).
    { intros Hne. specialize (Hgen Hne). clear Hone Hlen.
      induction one as [| item more IHone]; [constructor |].
      inversion Hok as [| ? ? Hitem Hmore]; subst.
      inversion Hgen as [| ? ? Hnostr Hrest]; subst.
      constructor; [| exact (IHone Hmore Hrest)].
      destruct item as [blocks | s]; [| exfalso; exact (Hnostr s eq_refl)].
      destruct blocks as [| [response] blocks]; [exfalso; exact Hitem |].
      destruct response, blocks; try (exfalso; exact Hitem).
      eexists. reflexivity. }
    destruct (stream_body env self e h) as [[[] | exn] h1]; cbn [snd] in *.
    + destruct (IH h1) as (more & Hmore & Hlen' & Hok' & Hgen').
      exists (one ++ more). rewrite Hmore, Hone, app_assoc.
      split; [reflexivity |]. split; [rewrite length_app; simpl; lia |].
      split; [apply Forall_app; split; assumption |].
      intros Hall. inversion Hall as [| ? ? Hne Hrest]; subst.
      apply Forall_app. split; [exact (Hone_gen Hne) | exact (Hgen' Hrest)].
    + exists one. split; [exact Hone |]. split; [simpl; lia |].
      split; [exact Hok |].
      intros Hall. inversion Hall as [| ? ? Hne Hrest]; subst. exact (Hone_gen Hne).
Qed.

(** X19: a RetrieverResources event stores its list under the one key
    [retriever_resources] and replaces what an earlier event stored there:
    after two such events only the resources of the second are kept, in both
    assemblers, and no other entry of the metadata changes. *)
Theorem X19_resources_replace_earlier (first second : list pyobj) (h : heap) :
  let stream := snd (stream_events env self
                       [QueueRetrieverResourcesEvent first;
                        QueueRetrieverResourcesEvent second] h) in
  let once := snd (stream_body env self (QueueRetrieverResourcesEvent second) h) in
  let blocking :=
    snd (blocking_body env self (QueueRetrieverResourcesEvent second)
           (snd (blocking_body env self (QueueRetrieverResourcesEvent first) h))) in
  stream = once /\
  blocking = once /\
  dict_get "retriever_resources" (TaskState.metadata (_task_state once)) =
    Some (PyList second) /\
  forall key, key <> "retriever_resources" ->
    dict_get key (TaskState.metadata (_task_state once)) =
    dict_get key (TaskState.metadata (_task_state h)).
Proof.
  cbv zeta. cbn [stream_events stream_body blocking_body]. run_monad.
  unfold set_task_state, set_metadata. cbn.
  rewrite dict_set_set. repeat split.
  - apply dict_get_set_eq.
  - intros key Hkey. apply dict_get_set_ne. exact Hkey.
Qed.

(** X20: on a MessageEnd event the streaming assembler drops what it had
    accumulated: TaskState's result becomes the result the event carries, and
    the record it saves takes its answer, its token counts and its prompt
    transcript from that result; the deltas drained before leave no trace in
    it. *)
Theorem X20_message_end_replaces_accumulation (llm_result : LLMResult) (h : heap) :
  fst (stream_body env self (QueueMessageEndEvent llm_result) h) = Ok tt ->
  let h' := snd (stream_body env self (QueueMessageEndEvent llm_result) h) in
  TaskState.llm_result (_task_state h') = llm_result /\
  Message.answer (_message h') = answer_for_saving env (message_content llm_result) /\
  Message.message_tokens (_message h') = prompt_tokens (usage llm_result) /\
  Message.answer_tokens (_message h') = completion_tokens (usage llm_result) /\
  _prompt_messages_to_prompt_for_saving self (prompt_messages llm_result) =
    Ok (Message.message (_message h')) /\
  commits h' = commits h ++ [_message h'].
Proof.
  unfold stream_body, _save_message, read_clock, yield_. run_monad.
  destruct (_prompt_messages_to_prompt_for_saving self (prompt_messages llm_result))
    as [prompts | e] eqn:Hp; simpl; [| discriminate].
  intros _. repeat split.
Qed.

(** X21: on a Stop event the streaming assembler finalizes what it has: the
    usage is computed by the model instance from the stored prompt messages
    and the text accumulated so far, and the record saved holds that text,
    cleaned, and those token counts. After the deltas of a chat task and a
    Stop, the answer saved is the concatenation of the deltas. *)
Theorem X21_stop_saves_accumulated_text
    (chunks : list (list PromptMessage * string)) (h : heap) (c : string) :
  ModelConfig.mode (model_config self) = "chat" ->
  let r := stream_events env self (map chunk_event chunks ++ [QueueStopEvent])
             (with_assembled_text (Some c) h) in
  let text := c +:+ concat_text (map snd chunks) in
  let final_usage :=
    _calc_response_usage env (ModelConfig.model (model_config self))
      (ModelConfig.credentials (model_config self))
      (get_num_tokens env (ModelConfig.model (model_config self))
         (stored_prompt_messages (snd r)))
      (get_num_tokens env (ModelConfig.model (model_config self))
         [{| role := ASSISTANT; content := ContentStr text |}]) in
  fst r = Ok tt /\
  assembled_text (snd r) = Some text /\
  Message.answer (_message (snd r)) = answer_for_saving env (Some text) /\
  usage (TaskState.llm_result (_task_state (snd r))) = final_usage /\
  Message.message_tokens (_message (snd r)) = prompt_tokens final_usage /\
  Message.answer_tokens (_message (snd r)) = completion_tokens final_usage /\
  length (commits (snd r)) = S (length (commits h)).
Proof.
  intros Hmode. cbv zeta. rewrite stream_events_app.
  destruct (stream_chunks_text env self chunks (with_assembled_text (Some c) h) c eq_refl)
    as [Hok Htext].
  pose proof (stream_events_counts env self (map chunk_event chunks)
                (with_assembled_text (Some c) h) Hok) as [Hcommits _].
  destruct (stream_events env self (map chunk_event chunks) (with_assembled_text (Some c) h))
    as [r1 h1]. cbn [fst snd] in *. subst r1.
  assert (Hnone : count_terminal (map chunk_event chunks) = 0%nat).
  { clear. induction chunks as [| x rest IH]; [reflexivity |].
    unfold count_terminal in *. cbn [map]. rewrite filter_cons_False by discriminate.
    exact IH. }
  rewrite Hnone, Nat.add_0_r in Hcommits. cbn [commits with_assembled_text set_task_state] in Hcommits.
  unfold assembled_text in Htext.
  cbn [stream_events]. unfold stream_body, _save_message, read_clock, yield_. run_monad.
  unfold _prompt_messages_to_prompt_for_saving. rewrite Hmode.
  cbn [String.eqb]. rewrite !Ascii.eqb_refl. simpl.
  unfold assembled_text, stored_prompt_messages. simpl.
  rewrite Htext. repeat split.
  rewrite length_app, Hcommits. simpl. lia.
Qed.

(** X22: an Error event ends the streaming sequence there: the exception
    raised is the translation of the error, nothing is saved or yielded for
    it, and no event behind it is processed. An authorization error is
    replaced by one with a fixed message; an InvokeError or ValueError is
    raised as it is; any other error becomes an Exception with its
    description when it has one, its text otherwise. *)
Theorem X22_error_ends_the_stream (before behind : list AppQueueEvent)
    (error : error_obj) (h : heap) (msg text description : string) :
  fst (stream_events env self before h) = Ok tt ->
  stream_events env self (before ++ QueueErrorEvent error :: behind) h =
    (Raise (_handle_error error), snd (stream_events env self before h)) /\
  _handle_error (InvokeAuthorizationError msg) =
    RaisedError (InvokeAuthorizationError "Incorrect API key provided") /\
  _handle_error (InvokeError msg) = RaisedError (InvokeError msg) /\
  _handle_error (ValueError msg) = RaisedError (ValueError msg) /\
  _handle_error (OtherError (Some description) text) = Exception description /\
  _handle_error (OtherError None text) = Exception text.
Proof.
  intros Hok. rewrite stream_events_app.
  destruct (stream_events env self before h) as [r1 h1]. cbn [fst snd] in *. subst r1.
  repeat split.
Qed.

End Streaming.

Lemma X20_message_end_replaces_accumulation_witness :
  let h := with_assembled_text (Some "partial") (sample_heap []) in
  fst (stream_body sample_env sample_pipeline (QueueMessageEndEvent sample_result) h) = Ok tt /\
  (let h' := snd (stream_body sample_env sample_pipeline (QueueMessageEndEvent sample_result) h) in
   TaskState.llm_result (_task_state h') = sample_result /\
   Message.answer (_message h') =
     answer_for_saving sample_env (message_content sample_result) /\
   Message.message_tokens (_message h') = prompt_tokens (usage sample_result) /\
   Message.answer_tokens (_message h') = completion_tokens (usage sample_result) /\
   _prompt_messages_to_prompt_for_saving sample_pipeline (prompt_messages sample_result) =
     Ok (Message.message (_message h')) /\
   commits h' = commits h ++ [_message h']).
Proof.
  intros h. split; [reflexivity |].
  apply (X20_message_end_replaces_accumulation sample_env sample_pipeline sample_result h).
  reflexivity.
Defined.

Lemma X21_stop_saves_accumulated_text_witness :
  ModelConfig.mode (model_config sample_pipeline) = "chat" /\
  (let r := stream_events sample_env sample_pipeline
              (map chunk_event [([], "Hel"); ([], "lo")] ++ [QueueStopEvent])
              (with_assembled_text (Some "") (sample_heap [])) in
   fst r = Ok tt /\
   assembled_text (snd r) = Some "Hello" /\
   Message.answer (_message (snd r)) = "Hello" /\
   length (commits (snd r)) = 1%nat).
Proof.
  split; [reflexivity |].
  destruct (X21_stop_saves_accumulated_text sample_env sample_pipeline
              [([], "Hel"); ([], "lo")] (sample_heap []) "" eq_refl)
    as (Hok & Htext & Hanswer & _ & _ & _ & Hcommits).
  repeat split; assumption.
Defined.

Lemma X22_error_ends_the_stream_witness :
  fst (stream_events sample_env sample_pipeline [delta_event "Hel"] (sample_heap [])) = Ok tt /\
  stream_events sample_env sample_pipeline
    ([delta_event "Hel"] ++ QueueErrorEvent (InvokeAuthorizationError "sk-secret rejected")
       :: [QueueMessageEndEvent sample_result]) (sample_heap []) =
    (Raise (RaisedError (InvokeAuthorizationError "Incorrect API key provided")),
     snd (stream_events sample_env sample_pipeline [delta_event "Hel"] (sample_heap []))).
Proof.
  split; [reflexivity |].
  destruct (X22_error_ends_the_stream sample_env sample_pipeline [delta_event "Hel"]
              [QueueMessageEndEvent sample_result]
              (InvokeAuthorizationError "sk-secret rejected") (sample_heap [])
              "" "" "" eq_refl) as [Hrun _].
  exact Hrun.
Defined.

(** The bound of 598 is the last that holds: with 599 messages before the
    sentinel the countdown runs out in the finally clause of the break, and
    of 700 queued messages 600 are handed over. *)
Lemma listen_budget_is_sharp :
  let drained n :=
    let '(messages, ending, _) :=
      listen_drain sample_manager assembler_fuel GenCreated
        (sample_world (repeat (queued QueuePingEvent) n ++ [None])) in
    (length messages, ending) in
  drained 598%nat = (598%nat, Returned) /\
  drained 599%nat = (599%nat, Raised ConversationTaskStoppedException) /\
  drained 700%nat = (600%nat, Raised ConversationTaskStoppedException).
Proof. vm_compute. repeat split. Qed.

